(** * K-nearest-neighbours classification chapter: model and properties

  The chapter [classification1.py] works on pandas data frames of
  float columns and calls [scikit-learn] for the classifier, the scaler
  and the resampling.  Numbers are modelled as real numbers ([R]), as
  the specification words its data model ("an ordered, fixed-length
  sequence of real numbers").  What is stated over [R] is what the
  float64 computation shares with it: which formula a cell computes,
  and what follows from order and monotonicity alone (sorting, least
  and greatest values, bounds).  Where exact and float64 arithmetic
  part, the statement says so: the distance cell is given a second
  reading in float64 ([F64]) on which it can be evaluated as the code
  evaluates it, and standardization is stated up to a tolerance.
  Library calls are given the behaviour the library has.

  Layout:
  - [Frame]: the data-frame operations the chapter uses (scalar
    subtraction, squaring, column addition, [np.sqrt], [sort_values],
    [head], [concat], [resample]),
  - [Knn]: distance, neighbour search and the classifier
    ([KNeighborsClassifier], [fit], [predict]),
  - [Cancer]: the chapter's own cells ([cancer_dist], [cancer_dist2],
    [rare_cancer], the oversampling cell),
  - [F64]: the distance cell in float64,
  - [Scaler]: centring and scaling ([StandardScaler]) and the
    preprocessor that takes its columns by name,
  - [Cells]: further cells ([explore_cancer], [my_distances],
    [np.argmin], [np.argpartition], [circle_path_df], [pcgrid], the
    prediction over a grid, the pipeline [knn_fit]),
  - worked data, then the properties, one per claim, and further
    properties of the chapter's cells. *)

From Stdlib Require Import String.
From Stdlib Require Import Reals Lra Lia List Bool Arith ZArith.
From Stdlib Require Import Permutation Sorted OrderedTypeEx.
From Stdlib Require Floats.
Import ListNotations.

Open Scope R_scope.

(** ** Errors and results *)

(** Kinds of failure.  The libraries raise a Python [ValueError] in each
    case; the kinds are named as in section 7 of the specification. *)
Inductive error : Type :=
| InvalidInputError
| DimensionMismatchError
| InvalidArgumentError.

Inductive result (A : Type) : Type :=
| Ok (a : A)
| Err (e : error).

Arguments Ok {A} a.
Arguments Err {A} e.

Definition bind {A B : Type} (r : result A) (f : A -> result B) : result B :=
  match r with
  | Ok a => f a
  | Err e => Err e
  end.

(** ** Comparisons on reals used as booleans *)

Definition Rleb (x y : R) : bool := if Rle_dec x y then true else false.
Definition Reqb (x y : R) : bool := if Req_dec_T x y then true else false.

(** ** Data-frame operations *)

Module Frame.

(** [col - s] for a column and a scalar. *)
Definition sub_scalar (col : list R) (s : R) : list R :=
  map (fun x => x - s) col.

(** [col ** 2]. *)
Definition pow2 (col : list R) : list R := map (fun x => x ^ 2) col.

(** [c1 + c2] for two columns of one frame (same index). *)
Definition add (c1 c2 : list R) : list R :=
  map (fun p => fst p + snd p) (combine c1 c2).

(** [np.sqrt(col)]. *)
Definition np_sqrt (col : list R) : list R := map sqrt col.

(** [df.head(n)]: the first [n] rows; for a negative [n], all rows but
    the last [-n]. *)
Definition head {A : Type} (n : Z) (df : list A) : list A :=
  if (0 <=? n)%Z then firstn (Z.to_nat n) df
  else firstn (length df - Z.to_nat (- n)) df.

(** [pd.concat((df1, df2))]. *)
Definition concat {A : Type} (df1 df2 : list A) : list A := df1 ++ df2.

(** [df.sort_values(by=key)]: the rows in ascending order of the key
    column, here by insertion.  pandas sorts with [kind="quicksort"]
    unless told otherwise and leaves the order among rows with equal
    keys to that algorithm; no statement below depends on the order
    this definition gives them. *)
Section Sort.
Context {A : Type} (key : A -> R).

Fixpoint insert_row (x : A) (l : list A) : list A :=
  match l with
  | [] => [x]
  | y :: l' => if Rleb (key x) (key y) then x :: y :: l'
               else y :: insert_row x l'
  end.

Fixpoint sort_values (df : list A) : list A :=
  match df with
  | [] => []
  | x :: df' => insert_row x (sort_values df')
  end.

End Sort.

(** [sklearn.utils.resample(a, n_samples=n)] (with replacement): the
    rows of [a] at the indices the random generator draws.  The [n]
    indices drawn by [randint(0, len(a), size=n)] are the argument
    [draws]; the seed only fixes which ones they are. *)
Definition resample {A : Type} (a : list A) (n_samples : nat)
    (draws : list nat) : list A :=
  flat_map (fun i => match nth_error a i with
                     | Some r => [r]
                     | None => []
                     end) (firstn n_samples draws).

(** What [randint(0, m, size=n)] returns: [n] indices below [m]. *)
Definition valid_draws (m n : nat) (draws : list nat) : bool :=
  Nat.eqb (length draws) n && forallb (fun i => Nat.ltb i m) draws.

End Frame.

(** ** Distance, neighbour selection, majority vote *)

Module Knn.

Definition FeatureVector := list R.
Definition Label := string.

Record LabeledSample : Type := mkSample {
  features : FeatureVector;
  label : Label
}.

Definition TrainingSet := list LabeledSample.

(** The outcome of one neighbour search: samples with their distance. *)
Definition NeighborResult := list (LabeledSample * R).

(** Sum of the squared differences of paired coordinates, as in the
    chapter's formula [(a1-b1)^2 + (a2-b2)^2 + ... + (am-bm)^2]. *)
Fixpoint sum_sq (a b : FeatureVector) : R :=
  match a, b with
  | x :: a', y :: b' => (x - y) ^ 2 + sum_sq a' b'
  | _, _ => 0
  end.

Definition euclid (a b : FeatureVector) : R := sqrt (sum_sq a b).

(** [distance] of two feature vectors; vectors of different lengths are
    refused. *)
Definition distance (a b : FeatureVector) : result R :=
  if Nat.eqb (length a) (length b) then Ok (euclid a b)
  else Err DimensionMismatchError.

(** The wording of the specification, coordinate by coordinate:
    the sum over [i < m] of [(a[i] - b[i])^2]. *)
Fixpoint sum_sq_upto (m : nat) (a b : FeatureVector) : R :=
  match m with
  | O => 0
  | S m' => sum_sq_upto m' a b + (nth m' a 0 - nth m' b 0) ^ 2
  end.

(** The distance from the query to every training sample. *)
Fixpoint distances (query : FeatureVector) (ts : TrainingSet)
    : result NeighborResult :=
  match ts with
  | [] => Ok []
  | s :: ts' =>
      bind (distance query (features s)) (fun d =>
      bind (distances query ts') (fun rest => Ok ((s, d) :: rest)))
  end.

(** Every training sample paired with its distance to the query, and the
    condition under which all these distances exist. *)
Definition with_distance (query : FeatureVector) (ts : TrainingSet)
    : NeighborResult :=
  map (fun s => (s, euclid query (features s))) ts.

Definition same_dimension (query : FeatureVector) (ts : TrainingSet) : Prop :=
  Forall (fun s => length (features s) = length query) ts.

(** The neighbour search: the [k] training samples nearest to the
    query, nearest first, with their distances.  The chapter runs it by
    hand as [sort_values(by="dist_from_new").head(5)]
    ([Cancer.cancer_dist] below); inside the classifier it is the
    library's [kneighbors].  That routine refuses a given [k <= 0]
    first, then validates the query against the fitted columns (a query
    of another dimension is refused there), and only then compares [k]
    with the number of fitted samples. *)
Definition nearest (ts : TrainingSet) (query : FeatureVector) (k : Z)
    : result NeighborResult :=
  if (k <=? 0)%Z then Err InvalidArgumentError
  else bind (distances query ts) (fun all =>
       if (Z.of_nat (length ts) <? k)%Z then Err InvalidArgumentError
       else Ok (Frame.head k (Frame.sort_values snd all))).

(** [np.unique(y)]: the labels of the training set, each once, in
    ascending order. *)
Fixpoint insert_label (l : Label) (cs : list Label) : list Label :=
  match cs with
  | [] => [l]
  | c :: cs' =>
      if String.eqb l c then cs
      else if String.ltb l c then l :: cs
      else c :: insert_label l cs'
  end.

Definition np_unique (y : list Label) : list Label :=
  fold_right insert_label [] y.

(** The order of the labels: the one [np.unique] sorts by. *)
Definition label_lt (a b : Label) : Prop := String.ltb a b = true.

(** Number of votes for a label among the neighbour labels (uniform
    weights: one vote per neighbour). *)
Definition votes (l : Label) (labels : list Label) : nat :=
  count_occ string_dec labels l.

(** The first class with the highest number of votes: the classes are
    visited in order, and the class kept so far is replaced only by a
    class with strictly more votes. *)
Fixpoint scan (labels : list Label) (cur : Label) (rest : list Label) : Label :=
  match rest with
  | [] => cur
  | x :: rest' =>
      if Nat.ltb (votes cur labels) (votes x labels)
      then scan labels x rest'
      else scan labels cur rest'
  end.

(** The vote of [predict]: the most frequent class among the neighbours,
    the classes being taken in the order of [classes_]. *)
Definition vote (classes : list Label) (labels : list Label) : option Label :=
  match classes with
  | [] => None
  | c :: rest => Some (scan labels c rest)
  end.

(** A fitted [KNeighborsClassifier]: the training data, [n_neighbors] and
    the sorted classes. *)
Record Classifier : Type := mkClassifier {
  trainingSet : TrainingSet;
  n_neighbors : Z;
  classes_ : list Label
}.

(** [knn_spec = KNeighborsClassifier(n_neighbors=k)] followed by
    [knn_spec.fit(X, y)].  The constructor checks nothing; [fit] refuses
    [n_neighbors <= 0] and an empty training set.  It does not compare
    [n_neighbors] with the number of samples: that is left to the
    neighbour search of each prediction. *)
Definition build (ts : TrainingSet) (k : Z) : result Classifier :=
  if (k <=? 0)%Z then Err InvalidArgumentError
  else match ts with
       | [] => Err InvalidInputError
       | _ :: _ => Ok (mkClassifier ts k (np_unique (map label ts)))
       end.

Definition neighbor_labels (res : NeighborResult) : list Label :=
  map (fun p => label (fst p)) res.

(** [knn_spec.predict(new_obs)] for one new observation. *)
Definition predictOne (clf : Classifier) (query : FeatureVector)
    : result Label :=
  bind (nearest (trainingSet clf) query (n_neighbors clf)) (fun res =>
  match vote (classes_ clf) (neighbor_labels res) with
  | Some l => Ok l
  | None => Err InvalidInputError
  end).

End Knn.

(** ** The chapter's own cells *)

Module Cancer.

(** A row of [wdbc.csv], restricted to the columns the chapter uses. *)
Record Row : Type := mkRow {
  ID : Z;
  Perimeter : R;
  Concavity : R;
  Symmetry : R;
  Class : string
}.

(** The column [dist_from_new] of [cancer_dist]. *)
Definition dist_from_new (cancer : list Row)
    (new_obs_Perimeter new_obs_Concavity : R) : list R :=
  Frame.np_sqrt
    (Frame.add
       (Frame.pow2 (Frame.sub_scalar (map Perimeter cancer) new_obs_Perimeter))
       (Frame.pow2 (Frame.sub_scalar (map Concavity cancer) new_obs_Concavity))).

(** [cancer_dist]: the five rows nearest to the new observation, with
    their distance. *)
Definition cancer_dist (cancer : list Row)
    (new_obs_Perimeter new_obs_Concavity : R) : list (Row * R) :=
  Frame.head 5
    (Frame.sort_values snd
       (combine cancer (dist_from_new cancer new_obs_Perimeter new_obs_Concavity))).

(** The column [dist_from_new] of [cancer_dist2] (three predictors). *)
Definition dist_from_new2 (cancer : list Row)
    (new_obs_Perimeter new_obs_Concavity new_obs_Symmetry : R) : list R :=
  Frame.np_sqrt
    (Frame.add
       (Frame.add
          (Frame.pow2 (Frame.sub_scalar (map Perimeter cancer) new_obs_Perimeter))
          (Frame.pow2 (Frame.sub_scalar (map Concavity cancer) new_obs_Concavity)))
       (Frame.pow2 (Frame.sub_scalar (map Symmetry cancer) new_obs_Symmetry))).

Definition cancer_dist2 (cancer : list Row)
    (new_obs_Perimeter new_obs_Concavity new_obs_Symmetry : R) : list (Row * R) :=
  Frame.head 5
    (Frame.sort_values snd
       (combine cancer
          (dist_from_new2 cancer new_obs_Perimeter new_obs_Concavity
             new_obs_Symmetry))).

(** [cancer_train]: class and the two predictors of every row. *)
Definition to_sample (r : Row) : Knn.LabeledSample :=
  Knn.mkSample [Perimeter r; Concavity r] (Class r).

(** The same with the three predictors of [cancer_dist2]. *)
Definition to_sample3 (r : Row) : Knn.LabeledSample :=
  Knn.mkSample [Perimeter r; Concavity r; Symmetry r] (Class r).

Definition set_Class (c : string) (r : Row) : Row :=
  mkRow (ID r) (Perimeter r) (Concavity r) (Symmetry r) c.

Definition class_dscp (x : string) : string :=
  if String.eqb x "M" then "Malignant"
  else if String.eqb x "B" then "Benign"
  else x.

(** [cancer.query("Class == 'c'")]. *)
Definition query_Class (c : string) (df : list Row) : list Row :=
  filter (fun r => String.eqb (Class r) c) df.

(** [df["Class"] = df["Class"].apply(f)]. *)
Definition apply_Class (f : string -> string) (df : list Row) : list Row :=
  map (fun r => set_Class (f (Class r)) r) df.

(** [rare_cancer]: every benign row and the first three malignant rows,
    with the class written out (the lambda of the cell that builds the
    table, then [class_dscp] in the next cell). *)
Definition rare_cancer (cancer : list Row) : list Row :=
  apply_Class class_dscp
    (apply_Class (fun x => if String.eqb x "M" then "Malignant"%string
                          else "Benign"%string)
       (Frame.concat (query_Class "B" cancer)
          (Frame.head 3 (query_Class "M" cancer)))).

Definition malignant_cancer (rare : list Row) : list Row :=
  query_Class "Malignant" rare.

Definition benign_cancer (rare : list Row) : list Row :=
  query_Class "Benign" rare.

Definition malignant_cancer_upsample (rare : list Row) (draws : list nat)
    : list Row :=
  Frame.resample (malignant_cancer rare) (length (benign_cancer rare)) draws.

(** [upsampled_cancer]: the resampled malignant rows followed by the
    benign rows. *)
Definition upsampled_cancer (rare : list Row) (draws : list nat) : list Row :=
  Frame.concat (malignant_cancer_upsample rare draws) (benign_cancer rare).

(** [df.groupby(by='Class')['Class'].count()] at one class. *)
Definition class_count (c : string) (df : list Row) : nat :=
  length (query_Class c df).

End Cancer.

(** ** The distance cells in float64 *)

(** The arithmetic the chapter's columns are computed in is IEEE 754
    binary64, every operation rounded to the nearest value.  The
    definitions below repeat [Frame]'s column operations,
    [Cancer.dist_from_new] and [Knn.distance] on float64 values, so that
    the cell can be evaluated as the code evaluates it ([col ** 2] is
    [col * col], [np.sqrt] is the rounded square root). *)
Module F64.
Import Floats.

Definition sub_scalar (col : list float) (s : float) : list float :=
  map (fun x => (x - s)%float) col.

Definition pow2 (col : list float) : list float :=
  map (fun x => (x * x)%float) col.

Definition add (c1 c2 : list float) : list float :=
  map (fun p => (fst p + snd p)%float) (combine c1 c2).

Definition np_sqrt (col : list float) : list float := map PrimFloat.sqrt col.

Definition dist_from_new (Perimeter Concavity : list float)
    (new_obs_Perimeter new_obs_Concavity : float) : list float :=
  np_sqrt
    (add (pow2 (sub_scalar Perimeter new_obs_Perimeter))
         (pow2 (sub_scalar Concavity new_obs_Concavity))).

(** The squared differences of paired coordinates, added from left to
    right. *)
Definition sum_sq (a b : list float) : float :=
  fold_left (fun acc p => (acc + (fst p - snd p) * (fst p - snd p))%float)
    (combine a b) 0%float.

Definition distance (a b : list float) : result float :=
  if Nat.eqb (length a) (length b) then Ok (PrimFloat.sqrt (sum_sq a b))
  else Err DimensionMismatchError.

End F64.

(** ** Centring and scaling *)

Module Scaler.

Definition Column := list R.

(** A table as its predictor columns. *)
Definition Table := list Column.

Definition sum (col : Column) : R := fold_right Rplus 0 col.

Definition mean (col : Column) : R := sum col / INR (length col).

(** Population variance and standard deviation (divisor [n]), the ones
    [StandardScaler] uses. *)
Definition variance (col : Column) : R :=
  sum (map (fun x => (x - mean col) ^ 2) col) / INR (length col).

Definition stddev (col : Column) : R := sqrt (variance col).

(** What [fit] stores for a column: [mean_] and [scale_]. *)
Record ColumnParams : Type := mkParams {
  mean_ : R;
  scale_ : R
}.

Definition ScalingParameters := list ColumnParams.

(** [np.finfo(np.float64).eps], which is [2^-52]. *)
Definition eps : R := / 4503599627370496.

(** The library's test for a constant or near-constant feature, on the
    variance, the mean and the number of samples:
    [var <= n_samples * eps * var + (n_samples * mean * eps) ** 2]. *)
Definition is_constant_feature (var mean : R) (n_samples : nat) : bool :=
  Rleb var (INR n_samples * eps * var + (INR n_samples * mean * eps) ^ 2).

(** [scale_] of a column: its standard deviation, and 1 for a column
    that the test above takes for constant. *)
Definition scale_of (col : Column) : R :=
  if is_constant_feature (variance col) (mean col) (length col) then 1
  else stddev col.

(** [StandardScaler().fit(t)]: the mean and the scale of every column; a
    table without rows is refused. *)
Definition fit (reference : Table) : result ScalingParameters :=
  if existsb (fun c => Nat.eqb (length c) 0) reference
     || Nat.eqb (length reference) 0
  then Err InvalidInputError
  else Ok (map (fun c => mkParams (mean c) (scale_of c)) reference).

Definition transform_column (p : ColumnParams) (col : Column) : Column :=
  map (fun x => (x - mean_ p) / scale_ p) col.

(** [StandardScaler.transform(t)] on an array: every value minus the
    stored mean of its column, divided by the stored scale; an array
    with another number of columns is refused. *)
Fixpoint transform (t : Table) (params : ScalingParameters) : result Table :=
  match t, params with
  | [], [] => Ok []
  | col :: t', p :: params' =>
      bind (transform t' params') (fun rest =>
      Ok (transform_column p col :: rest))
  | _, _ => Err DimensionMismatchError
  end.







End Scaler.

(** ** Further cells of the chapter *)

Module Cells.
Import Cancer.

(** [x < y] on reals as a boolean. *)
Definition Rltb (x y : R) : bool := negb (Rleb y x).

(** [lambda x: 'Malignant' if (x == 'M') else 'Benign']. *)
Definition spell_out (x : string) : string :=
  if String.eqb x "M" then "Malignant" else "Benign".

(** [explore_cancer]: for every class, in the sorted order of the group
    keys, its number of rows and its percentage of [num_obs]. *)
Record ClassShare : Type := mkShare {
  share_class : string;
  count : nat;
  percentage : R
}.

Definition explore_cancer (cancer : list Row) : list ClassShare :=
  let num_obs := length cancer in
  map (fun c => mkShare c (class_count c cancer)
                  (INR (class_count c cancer) / INR num_obs * 100))
    (Knn.np_unique (map Class cancer)).

(** The sum of a column of counts. *)
Definition total (ns : list nat) : nat := fold_right Nat.add 0%nat ns.


(** [euclidean_distances(X)]: the matrix of the distances between the
    rows of [X], as the library computes it: the squared distance of two
    rows [a] and [b] is taken as [-2 * a.b + a.a + b.b], cut off below
    at 0, the diagonal is set to 0, and the square root is taken.  Over
    the reals this is the distance of [a] and [b]; in float64 it can
    differ from the directly computed distance, so nothing below is
    stated on the values beyond their sign and their order. *)
Definition dot (a b : Knn.FeatureVector) : R :=
  fold_right Rplus 0 (map (fun p => fst p * snd p) (combine a b)).

Definition enumerate {A : Type} (l : list A) : list (nat * A) :=
  combine (seq 0 (length l)) l.

Definition pair_distance (ia jb : nat * Knn.FeatureVector) : R :=
  if Nat.eqb (fst ia) (fst jb) then 0
  else sqrt (Rmax (-2 * dot (snd ia) (snd jb) + dot (snd ia) (snd ia)
                   + dot (snd jb) (snd jb)) 0).

Definition euclidean_distances (X : list Knn.FeatureVector) : list (list R) :=
  map (fun ia => map (fun jb => pair_distance ia jb) (enumerate X))
    (enumerate X).

(** [my_distances]: the frame with the new point appended
    ([pd.concat((cancer, points_df))]), its distance matrix, the row of
    the new point ([[len(cancer)]]), without its last entry ([[:-1]]). *)
Definition my_distances (points : list Knn.FeatureVector)
    (new_point : Knn.FeatureVector) : list R :=
  removelast
    (nth (length points) (euclidean_distances (points ++ [new_point])) []).

(** [np.argmin(a)]: the index of the first smallest value; no index for
    an empty array (numpy raises). *)
Fixpoint argmin_from (best_i : nat) (best : R) (i : nat) (a : list R) : nat :=
  match a with
  | [] => best_i
  | x :: a' =>
      if Rltb x best then argmin_from i x (S i) a'
      else argmin_from best_i best (S i) a'
  end.

Definition np_argmin (a : list R) : option nat :=
  match a with
  | [] => None
  | x :: a' => Some (argmin_from 0 x 1 a')
  end.

(** [np.argpartition(a, kth)]: indices that put the [kth] smallest
    value at position [kth], the indices of smaller values before it and
    those of larger values after it.  On an empty array numpy returns
    the empty array without looking at [kth]; otherwise a [kth] that is
    not below the length of the array is refused.  numpy leaves the
    order within the two parts open; here the indices come in ascending
    order of their values, and no statement below depends on the order
    within a part. *)
Definition np_argpartition (a : list R) (kth : nat) : result (list nat) :=
  match a with
  | [] => Ok []
  | _ :: _ =>
      if Nat.ltb kth (length a)
      then Ok (map fst (Frame.sort_values snd (combine (seq 0 (length a)) a)))
      else Err InvalidArgumentError
  end.

(** [min_k_idx = np.argpartition(my_distances, k)[:k]]. *)
Definition min_idx (my_distances : list R) (k : nat) : result (list nat) :=
  bind (np_argpartition my_distances k) (fun idx => Ok (firstn k idx)).

(** [np.linspace(start, stop, num)]: [num] evenly spaced values, both
    ends included. *)
Definition np_linspace (start stop : R) (num : nat) : list R :=
  map (fun i => start + INR i * ((stop - start) / INR (num - 1))) (seq 0 num).

(** [circle_path_df]: the hundred points of the path drawn around the
    new point, as (perimeter, concavity) pairs.  Cosine and sine are
    those of the reals; what is stated of the path below is what their
    float64 versions share with them: their values at 0, and their
    bounds -1 and 1. *)
Definition circle_path_df (new_point0 new_point1 : R) : list (R * R) :=
  combine
    (map (fun t => new_point0 + 1.4 * cos t) (np_linspace 0 (2 * PI) 100))
    (map (fun t => new_point1 + 1.4 * sin t) (np_linspace 0 (2 * PI) 100)).

(** [col.min()] and [col.max()]; nothing for an empty column (pandas
    answers NaN there, which is no real number). *)
Definition col_min (col : list R) : option R :=
  match col with
  | [] => None
  | x :: col' => Some (fold_left Rmin col' x)
  end.

Definition col_max (col : list R) : option R :=
  match col with
  | [] => None
  | x :: col' => Some (fold_left Rmax col' x)
  end.

(** [np.array(np.meshgrid(xs, ys)).reshape(2, -1).T]: every pair of an
    [x] and a [y], the [x] running fastest. *)
Definition meshgrid_rows (xs ys : list R) : list Knn.FeatureVector :=
  flat_map (fun y => map (fun x => [x; y]) xs) ys.

(** [pcgrid]: the 100 x 100 grid over the range of the perimeters and
    the range of the concavities of [rare_cancer]. *)
Definition pcgrid (rare : list Row) : option (list Knn.FeatureVector) :=
  match col_min (map Perimeter rare), col_max (map Perimeter rare),
        col_min (map Concavity rare), col_max (map Concavity rare) with
  | Some per_lo, Some per_hi, Some con_lo, Some con_hi =>
      Some (meshgrid_rows (np_linspace per_lo per_hi 100)
              (np_linspace con_lo con_hi 100))
  | _, _, _, _ => None
  end.

(** [knn_spec.predict(queries)] for a frame of new observations: one
    label per row, and no result at all when one row is refused. *)
Fixpoint predict (clf : Knn.Classifier) (queries : list Knn.FeatureVector)
    : result (list Knn.Label) :=
  match queries with
  | [] => Ok []
  | q :: qs =>
      bind (Knn.predictOne clf q) (fun l =>
      bind (predict clf qs) (fun ls => Ok (l :: ls)))
  end.

(** A row of [unscaled_wdbc.csv], restricted to the columns of the
    pipeline. *)
Record URow : Type := mkURow {
  UClass : string;
  Area : R;
  Smoothness : R
}.

(** The rows of a two-column table, each with its label. *)
Definition labelled_rows (labels : list string) (t : Scaler.Table)
    : Knn.TrainingSet :=
  match t with
  | [areas; smooths] =>
      map (fun p => Knn.mkSample [fst (snd p); snd (snd p)] (fst p))
        (combine labels (combine areas smooths))
  | _ => []
  end.

(** [knn_fit = make_pipeline(preprocessor, knn_spec).fit(X, y)] with
    [n_neighbors=7]: the scaler is fitted on the two predictor columns,
    the classifier on the scaled columns. *)
Definition knn_fit (unscaled_cancer : list URow)
    : result (Scaler.ScalingParameters * Knn.Classifier) :=
  let X := [map Area unscaled_cancer; map Smoothness unscaled_cancer] in
  bind (Scaler.fit X) (fun params =>
  bind (Scaler.transform X params) (fun scaled =>
  bind (Knn.build (labelled_rows (map UClass unscaled_cancer) scaled) 7)
    (fun clf => Ok (params, clf)))).

(** [knn_fit.predict(new_observation)] for one new observation: the
    stored scaling is applied to it, then the classifier predicts. *)
Definition pipeline_predict
    (fitted : Scaler.ScalingParameters * Knn.Classifier)
    (area smoothness : R) : result Knn.Label :=
  bind (Scaler.transform [[area]; [smoothness]] (fst fitted)) (fun scaled =>
  match scaled with
  | [[a]; [s]] => Knn.predictOne (snd fitted) [a; s]
  | _ => Err DimensionMismatchError
  end).

End Cells.

(** ** Worked data *)

(** Five training points at the distances 0.88, 0.98, 1.14, 1.26 and
    1.28 from the query [0]. *)
Definition five_points : Knn.TrainingSet :=
  [Knn.mkSample [0.88] "B"%string; Knn.mkSample [0.98] "M"%string;
   Knn.mkSample [1.14] "M"%string; Knn.mkSample [1.26] "M"%string;
   Knn.mkSample [1.28] "B"%string].

Definition five_neighbors : Knn.NeighborResult :=
  [(Knn.mkSample [0.88] "B"%string, 0.88); (Knn.mkSample [0.98] "M"%string, 0.98);
   (Knn.mkSample [1.14] "M"%string, 1.14); (Knn.mkSample [1.26] "M"%string, 1.26);
   (Knn.mkSample [1.28] "B"%string, 1.28)].

(** Two training points, the malignant one nearer to the query [0]. *)
Definition two_points : Knn.TrainingSet :=
  [Knn.mkSample [2] "B"%string; Knn.mkSample [1] "M"%string].

Definition two_neighbors : Knn.NeighborResult :=
  [(Knn.mkSample [1] "M"%string, 1); (Knn.mkSample [2] "B"%string, 2)].

(** Ten training points on a line. *)
Definition ten_points : Knn.TrainingSet :=
  map (fun x => Knn.mkSample [INR x] "B"%string) (seq 0 10).

(** Three malignant and four benign training points in the plane. *)
Definition seven_points : Knn.TrainingSet :=
  [Knn.mkSample [2; 2] "Malignant"%string; Knn.mkSample [2; 3] "Malignant"%string;
   Knn.mkSample [3; 2] "Malignant"%string; Knn.mkSample [0; 0] "Benign"%string;
   Knn.mkSample [0; 1] "Benign"%string; Knn.mkSample [1; 0] "Benign"%string;
   Knn.mkSample [-1; 0] "Benign"%string].

(** One malignant and four benign training points in the plane. *)
Definition one_and_four : Knn.TrainingSet :=
  [Knn.mkSample [2; 2] "Malignant"%string; Knn.mkSample [0; 0] "Benign"%string;
   Knn.mkSample [0; 1] "Benign"%string; Knn.mkSample [1; 0] "Benign"%string;
   Knn.mkSample [-1; 0] "Benign"%string].

(** Three malignant rows before four benign rows; two malignant rows
    before three benign rows; and a table in which the malignant rows
    are the majority. *)
Definition three_rare : list Cancer.Row :=
  [Cancer.mkRow 1 0 0 0 "Malignant"; Cancer.mkRow 2 1 1 1 "Malignant";
   Cancer.mkRow 3 2 1 0 "Malignant"; Cancer.mkRow 4 0 1 0 "Benign";
   Cancer.mkRow 5 1 0 0 "Benign"; Cancer.mkRow 6 2 0 1 "Benign";
   Cancer.mkRow 7 2 2 1 "Benign"].

Definition small_rare : list Cancer.Row :=
  [Cancer.mkRow 1 0 0 0 "Malignant"; Cancer.mkRow 2 1 1 1 "Malignant";
   Cancer.mkRow 3 0 1 0 "Benign"; Cancer.mkRow 4 1 0 0 "Benign";
   Cancer.mkRow 5 2 0 1 "Benign"].

Definition mostly_malignant : list Cancer.Row :=
  [Cancer.mkRow 1 0 0 0 "Malignant"; Cancer.mkRow 2 1 1 1 "Malignant";
   Cancer.mkRow 3 0 1 0 "Benign"].

(** Four malignant and four benign rows as [wdbc.csv] codes them. *)
Definition eight_rows : list Cancer.Row :=
  [Cancer.mkRow 1 2 2 1 "M"; Cancer.mkRow 2 0 0 0 "B";
   Cancer.mkRow 3 2 3 1 "M"; Cancer.mkRow 4 0 1 0 "B";
   Cancer.mkRow 5 3 2 0 "M"; Cancer.mkRow 6 1 0 1 "B";
   Cancer.mkRow 7 3 3 1 "M"; Cancer.mkRow 8 (-1) 0 0 "B"].

(** Seven rows of the unscaled table, three malignant. *)
Definition seven_urows : list Cells.URow :=
  [Cells.mkURow "M" 1000 0.12; Cells.mkURow "M" 1200 0.11;
   Cells.mkURow "M" 900 0.13; Cells.mkURow "B" 400 0.08;
   Cells.mkURow "B" 500 0.09; Cells.mkURow "B" 450 0.10;
   Cells.mkURow "B" 550 0.07].


(** Seven training points on a line, not in the order of their
    distance from 0: the five nearest to 0 are those of [five_points]. *)
Definition seven_on_a_line : Knn.TrainingSet :=
  [Knn.mkSample [3] "B"%string; Knn.mkSample [0.88] "B"%string;
   Knn.mkSample [2] "B"%string; Knn.mkSample [1.26] "M"%string;
   Knn.mkSample [1.14] "M"%string; Knn.mkSample [0.98] "M"%string;
   Knn.mkSample [1.28] "B"%string].

(** * Basic facts *)

Lemma Rleb_true (x y : R) : x <= y -> Rleb x y = true.
Proof. intros H. unfold Rleb. destruct (Rle_dec x y); [reflexivity | contradiction]. Qed.

Lemma Rleb_false (x y : R) : y < x -> Rleb x y = false.
Proof. intros H. unfold Rleb. destruct (Rle_dec x y); [lra | reflexivity]. Qed.

Lemma Rleb_le (x y : R) : Rleb x y = true <-> x <= y.
Proof. unfold Rleb. destruct (Rle_dec x y); split; intros; auto; discriminate. Qed.

Lemma Rleb_gt (x y : R) : Rleb x y = false <-> y < x.
Proof. unfold Rleb. destruct (Rle_dec x y); split; intros; try discriminate; lra. Qed.



Lemma Reqb_neq (x y : R) : Reqb x y = false <-> x <> y.
Proof. unfold Reqb. destruct (Req_dec_T x y); split; intros; auto; try discriminate; contradiction. Qed.

(** * Properties of the distance *)

Section DistanceFacts.
Import Knn.

Lemma sum_sq_nonneg (a b : FeatureVector) : 0 <= sum_sq a b.
Proof.
  revert b. induction a as [|x a IH]; intros [|y b]; simpl; try lra.
  specialize (IH b). pose proof (pow2_ge_0 (x - y)). lra.
Qed.

Lemma sum_sq_sym (a b : FeatureVector) : sum_sq a b = sum_sq b a.
Proof.
  revert b. induction a as [|x a IH]; intros [|y b]; simpl; try reflexivity.
  rewrite (IH b). ring.
Qed.

Lemma sum_sq_upto_cons (m : nat) (x y : R) (a b : FeatureVector) :
  sum_sq_upto (S m) (x :: a) (y :: b) = (x - y) ^ 2 + sum_sq_upto m a b.
Proof.
  induction m as [|m IH].
  - simpl. ring.
  - change (sum_sq_upto (S (S m)) (x :: a) (y :: b))
      with (sum_sq_upto (S m) (x :: a) (y :: b)
            + (nth (S m) (x :: a) 0 - nth (S m) (y :: b) 0) ^ 2).
    rewrite IH. simpl. ring.
Qed.

Lemma sum_sq_indexed (a b : FeatureVector) :
  length a = length b -> sum_sq a b = sum_sq_upto (length a) a b.
Proof.
  revert b. induction a as [|x a IH]; intros [|y b] Hlen; simpl in Hlen;
    try discriminate; try reflexivity.
  injection Hlen as Hlen.
  change (length (x :: a)) with (S (length a)).
  rewrite sum_sq_upto_cons. simpl. rewrite (IH b Hlen). reflexivity.
Qed.

Lemma sum_sq_zero_iff (a b : FeatureVector) :
  length a = length b -> (sum_sq a b = 0 <-> a = b).
Proof.
  revert b. induction a as [|x a IH]; intros [|y b] Hlen; simpl in Hlen;
    try discriminate.
  - simpl. split; reflexivity.
  - injection Hlen as Hlen. simpl. split.
    + intros H0.
      pose proof (sum_sq_nonneg a b) as Hn.
      pose proof (pow2_ge_0 (x - y)) as Hp.
      assert (Hxy : (x - y) ^ 2 = 0) by lra.
      assert (Hs : sum_sq a b = 0) by lra.
      assert (x = y) by nra.
      apply (IH b Hlen) in Hs. congruence.
    + intros Heq. injection Heq as -> Hab.
      apply (IH b Hlen) in Hab. rewrite Hab. ring.
Qed.

Lemma distance_ok (a b : FeatureVector) :
  length a = length b -> distance a b = Ok (euclid a b).
Proof.
  intros H. unfold distance. rewrite H, Nat.eqb_refl. reflexivity.
Qed.

Lemma sqrt_between (lo hi x : R) :
  0 <= lo -> lo * lo < x -> x < hi * hi -> 0 <= hi -> lo < sqrt x < hi.
Proof.
  intros Hlo H1 H2 Hhi. split.
  - rewrite <- (sqrt_square lo Hlo). apply sqrt_lt_1_alt. nra.
  - rewrite <- (sqrt_square hi Hhi). apply sqrt_lt_1_alt. nra.
Qed.

End DistanceFacts.

Section ChapterDistance.
Import Knn Cancer.

Lemma dist_from_new_rows (cancer : list Row) (p c : R) :
  dist_from_new cancer p c
  = map (fun r => euclid [Perimeter r; Concavity r] [p; c]) cancer.
Proof.
  unfold dist_from_new, Frame.np_sqrt, Frame.add, Frame.pow2, Frame.sub_scalar.
  induction cancer as [|r cancer IH]; simpl; [reflexivity|].
  simpl in IH. rewrite IH. f_equal. unfold euclid. simpl. f_equal. ring.
Qed.

Lemma dist_from_new2_rows (cancer : list Row) (p c s : R) :
  dist_from_new2 cancer p c s
  = map (fun r => euclid [Perimeter r; Concavity r; Symmetry r] [p; c; s]) cancer.
Proof.
  unfold dist_from_new2, Frame.np_sqrt, Frame.add, Frame.pow2, Frame.sub_scalar.
  induction cancer as [|r cancer IH]; simpl; [reflexivity|].
  simpl in IH. rewrite IH. f_equal. unfold euclid. simpl. f_equal. ring.
Qed.

End ChapterDistance.

(** * C1: the distance is the square root of the sum of squared differences *)

(** C1.  For feature vectors [a] and [b] of equal length, [distance a b]
    is the square root of the sum over the coordinates [i] of
    [(a[i] - b[i])^2], whatever the number of predictors.  For
    [a = (0, 3.5)] and [b = (0.24, 2.65)] the value is
    [sqrt (0.24^2 + 0.85^2)], which is 0.8832 to four places.  The
    chapter's two distance columns ([cancer_dist], two predictors, and
    [cancer_dist2], three predictors) hold exactly this distance between
    each row and the new observation. *)
Theorem distance_is_root_of_squared_differences :
  forall a b : Knn.FeatureVector,
    length a = length b ->
    Knn.distance a b = Ok (sqrt (Knn.sum_sq_upto (length a) a b))
    /\ (exists d, Knn.distance [0; 3.5] [0.24; 2.65] = Ok d
                  /\ Rabs (d - sqrt (0.24 ^ 2 + 0.85 ^ 2)) < 1e-6
                  /\ 0.8832 < d < 0.8833)
    /\ (forall cancer p c,
          Forall2 (fun r d =>
                     Knn.distance [Cancer.Perimeter r; Cancer.Concavity r] [p; c]
                     = Ok d)
            cancer (Cancer.dist_from_new cancer p c))
    /\ (forall cancer p c s,
          Forall2 (fun r d =>
                     Knn.distance
                       [Cancer.Perimeter r; Cancer.Concavity r; Cancer.Symmetry r]
                       [p; c; s]
                     = Ok d)
            cancer (Cancer.dist_from_new2 cancer p c s)).
Proof.
  intros a b Hlen. repeat split.
  - rewrite (distance_ok a b Hlen). unfold Knn.euclid.
    rewrite (sum_sq_indexed a b Hlen). reflexivity.
  - exists (sqrt (0.24 ^ 2 + 0.85 ^ 2)). split; [|split].
    + unfold Knn.distance, Knn.euclid. simpl. do 2 f_equal. lra.
    + replace (sqrt (0.24 ^ 2 + 0.85 ^ 2) - sqrt (0.24 ^ 2 + 0.85 ^ 2)) with 0 by ring.
      rewrite Rabs_R0. lra.
    + apply sqrt_between; lra.
  - intros cancer p c. rewrite dist_from_new_rows.
    induction cancer as [|r cancer IH]; simpl; constructor; auto.
  - intros cancer p c s. rewrite dist_from_new2_rows.
    induction cancer as [|r cancer IH]; simpl; constructor; auto.
Qed.

Lemma distance_is_root_of_squared_differences_witness :
  length [1; 2; 3] = length [4; 6; 3]
  /\ Knn.distance [1; 2; 3] [4; 6; 3]
     = Ok (sqrt (Knn.sum_sq_upto (length [1; 2; 3]) [1; 2; 3] [4; 6; 3])).
Proof.
  split; [reflexivity|].
  exact (proj1 (distance_is_root_of_squared_differences
                  [1; 2; 3] [4; 6; 3] eq_refl)).
Defined.

(** * C9: symmetry, non-negativity, and zero on equal vectors *)

Section FloatReading.
Import Floats.

(** C9, as stated, fails in the arithmetic the chapter computes in.  The
    row with perimeter 1e-200 and concavity 3.5 and the new observation
    (0, 3.5) differ, yet the distance column holds 0 for that row: the
    square of the difference 1e-200 is below the least positive float64
    value and is rounded to 0. *)
#[warnings="-inexact-float"]
Lemma different_vectors_at_distance_zero :
  F64.distance [1e-200; 3.5]%float [0; 3.5]%float = Ok 0%float
  /\ F64.distance [0; 3.5]%float [1e-200; 3.5]%float = Ok 0%float
  /\ [1e-200; 3.5]%float <> [0; 3.5]%float
  /\ F64.dist_from_new [1e-200]%float [3.5]%float 0 3.5 = [0]%float.
Proof.
  split; [vm_compute; reflexivity|]. split; [vm_compute; reflexivity|].
  split; [|vm_compute; reflexivity].
  intros H.
  apply (f_equal (fun l => match l with
                           | x :: _ => PrimFloat.eqb x 0
                           | [] => true
                           end)) in H.
  vm_compute in H. discriminate.
Qed.

End FloatReading.

(** C9, amended.  For feature vectors [a] and [b] of equal length, the
    distance from [a] to [b] is the distance from [b] to [a], it is not
    negative, and it is zero when [a] and [b] have the same
    coordinates. *)
Theorem distance_symmetric_nonneg_zero_on_equal :
  forall a b : Knn.FeatureVector,
    length a = length b ->
    exists d,
      Knn.distance a b = Ok d
      /\ Knn.distance b a = Ok d
      /\ 0 <= d
      /\ (a = b -> d = 0).
Proof.
  intros a b Hlen. exists (Knn.euclid a b).
  split; [apply distance_ok; exact Hlen|].
  split.
  { rewrite (distance_ok b a (eq_sym Hlen)). unfold Knn.euclid.
    rewrite (sum_sq_sym b a). reflexivity. }
  split; [apply sqrt_pos|].
  unfold Knn.euclid. intros Hab.
  apply (sum_sq_zero_iff a b Hlen) in Hab. rewrite Hab. apply sqrt_0.
Qed.

Lemma distance_symmetric_nonneg_zero_on_equal_witness :
  length [0; 3.5] = length [0.24; 2.65]
  /\ exists d,
      Knn.distance [0; 3.5] [0.24; 2.65] = Ok d
      /\ Knn.distance [0.24; 2.65] [0; 3.5] = Ok d
      /\ 0 <= d.
Proof.
  split; [reflexivity|].
  destruct (distance_symmetric_nonneg_zero_on_equal [0; 3.5] [0.24; 2.65]
              eq_refl) as [d [H1 [H2 [H3 _]]]].
  exists d. repeat split; assumption.
Defined.

(** * Facts on [sort_values] and [head] *)

Section SortFacts.
Context {A : Type} (key : A -> R).

Let le_key (x y : A) : Prop := key x <= key y.

Lemma insert_row_perm (x : A) (l : list A) :
  Permutation (Frame.insert_row key x l) (x :: l).
Proof.
  induction l as [|y l IH]; simpl; [apply Permutation_refl|].
  destruct (Rleb (key x) (key y)); [apply Permutation_refl|].
  eapply Permutation_trans; [apply perm_skip, IH | apply perm_swap].
Qed.

Lemma sort_values_perm (l : list A) : Permutation (Frame.sort_values key l) l.
Proof.
  induction l as [|x l IH]; simpl; [constructor|].
  eapply Permutation_trans; [apply insert_row_perm | apply perm_skip, IH].
Qed.

Lemma sort_values_length (l : list A) :
  length (Frame.sort_values key l) = length l.
Proof. apply Permutation_length, sort_values_perm. Qed.

Lemma insert_row_sorted (x : A) (l : list A) :
  StronglySorted le_key l -> StronglySorted le_key (Frame.insert_row key x l).
Proof.
  induction l as [|y l IH]; intros Hs; simpl.
  - constructor; constructor.
  - inversion Hs as [|? ? Hl Hy]; subst.
    destruct (Rleb (key x) (key y)) eqn:Hxy.
    + apply Rleb_le in Hxy. constructor; [exact Hs|].
      constructor; [exact Hxy|].
      eapply Forall_impl; [|exact Hy].
      intros z Hz. unfold le_key in *. lra.
    + apply Rleb_gt in Hxy. constructor; [apply IH; exact Hl|].
      rewrite Forall_forall. intros z Hz.
      apply (Permutation_in _ (insert_row_perm x l)) in Hz.
      destruct Hz as [<- | Hz].
      * unfold le_key. lra.
      * rewrite Forall_forall in Hy. apply Hy, Hz.
Qed.

Lemma sort_values_sorted (l : list A) :
  StronglySorted le_key (Frame.sort_values key l).
Proof.
  induction l as [|x l IH]; simpl; [constructor|].
  apply insert_row_sorted, IH.
Qed.

Lemma sorted_app_le (l1 l2 : list A) :
  StronglySorted le_key (l1 ++ l2) ->
  forall x y, In x l1 -> In y l2 -> key x <= key y.
Proof.
  induction l1 as [|z l1 IH]; intros Hs x y Hx Hy; [contradiction|].
  simpl in Hs. inversion Hs as [|? ? Hl Hz]; subst.
  destruct Hx as [<- | Hx].
  - rewrite Forall_forall in Hz. apply Hz, in_or_app. right. exact Hy.
  - apply (IH Hl x y Hx Hy).
Qed.

Lemma sorted_app_l (l1 l2 : list A) :
  StronglySorted le_key (l1 ++ l2) -> StronglySorted le_key l1.
Proof.
  induction l1 as [|z l1 IH]; intros Hs; [constructor|].
  simpl in Hs. inversion Hs as [|? ? Hl Hz]; subst.
  constructor; [apply IH, Hl|].
  rewrite Forall_forall in *. intros w Hw. apply Hz, in_or_app. left. exact Hw.
Qed.

End SortFacts.

Lemma in_firstn {A : Type} (n : nat) (l : list A) (x : A) :
  In x (firstn n l) -> In x l.
Proof.
  intros H. rewrite <- (firstn_skipn n l). apply in_or_app. left. exact H.
Qed.

Lemma head_firstn {A : Type} (k : Z) (l : list A) :
  (0 <= k)%Z -> Frame.head k l = firstn (Z.to_nat k) l.
Proof.
  intros Hk. unfold Frame.head.
  destruct (0 <=? k)%Z eqn:E; [reflexivity|].
  apply Z.leb_gt in E. lia.
Qed.

(** * Facts on the neighbour search *)

Section NearestFacts.
Import Knn.

Lemma distances_ok (query : FeatureVector) (ts : TrainingSet) :
  same_dimension query ts -> distances query ts = Ok (with_distance query ts).
Proof.
  induction 1 as [|s ts Hs Hts IH]; [reflexivity|].
  simpl. rewrite (distance_ok query (features s)) by (symmetry; exact Hs).
  simpl. rewrite IH. reflexivity.
Qed.

Lemma distances_inv (query : FeatureVector) (ts : TrainingSet) (all : NeighborResult) :
  distances query ts = Ok all ->
  same_dimension query ts /\ all = with_distance query ts.
Proof.
  revert all. induction ts as [|s ts IH]; intros all H; simpl in H.
  - injection H as <-. split; [constructor | reflexivity].
  - unfold distance in H.
    destruct (Nat.eqb (length query) (length (features s))) eqn:E;
      [|discriminate].
    apply Nat.eqb_eq in E. simpl in H.
    destruct (distances query ts) as [rest|e]; [|discriminate].
    simpl in H. injection H as <-.
    destruct (IH rest eq_refl) as [Hd ->].
    split; [constructor; [symmetry; exact E | exact Hd] | reflexivity].
Qed.

Lemma distances_err (query : FeatureVector) (ts : TrainingSet) (e : error) :
  distances query ts = Err e -> e = DimensionMismatchError.
Proof.
  induction ts as [|s ts IH]; simpl; [discriminate|].
  unfold distance.
  destruct (Nat.eqb (length query) (length (features s))); simpl.
  - destruct (distances query ts) as [rest|e']; simpl; [discriminate|].
    intros H. injection H as <-. apply IH. reflexivity.
  - intros H. injection H as <-. reflexivity.
Qed.

(** A query of another dimension than some training sample gets no
    distances. *)
Lemma distances_mismatch (query : FeatureVector) (ts : TrainingSet) :
  ~ same_dimension query ts ->
  distances query ts = Err DimensionMismatchError.
Proof.
  intros Hd. destruct (distances query ts) as [all|e] eqn:E.
  - exfalso. apply Hd. apply (distances_inv query ts all E).
  - rewrite (distances_err query ts e E). reflexivity.
Qed.

(** What a successful search returns. *)
Lemma nearest_inv (ts : TrainingSet) (query : FeatureVector) (k : Z)
    (res : NeighborResult) :
  nearest ts query k = Ok res ->
  (1 <= k <= Z.of_nat (length ts))%Z
  /\ same_dimension query ts
  /\ res = firstn (Z.to_nat k) (Frame.sort_values snd (with_distance query ts)).
Proof.
  unfold nearest. intros H.
  destruct (k <=? 0)%Z eqn:Hk0; [discriminate|].
  apply Z.leb_gt in Hk0.
  destruct (distances query ts) as [all|e] eqn:Hall; [|discriminate].
  simpl in H.
  destruct (Z.of_nat (length ts) <? k)%Z eqn:Hkn; [discriminate|].
  apply Z.ltb_ge in Hkn. injection H as <-.
  apply distances_inv in Hall. destruct Hall as [Hd ->].
  rewrite head_firstn by lia. split; [lia | auto].
Qed.

Lemma nearest_ok (ts : TrainingSet) (query : FeatureVector) (k : Z) :
  (1 <= k <= Z.of_nat (length ts))%Z ->
  same_dimension query ts ->
  nearest ts query k
  = Ok (firstn (Z.to_nat k) (Frame.sort_values snd (with_distance query ts))).
Proof.
  intros Hk Hd. unfold nearest.
  rewrite (proj2 (Z.leb_gt k 0)) by lia.
  rewrite (distances_ok query ts Hd). simpl.
  rewrite (proj2 (Z.ltb_ge (Z.of_nat (length ts)) k)) by lia.
  rewrite head_firstn by lia. reflexivity.
Qed.

(** The three ways the search fails. *)
Lemma nearest_nonpositive (ts : TrainingSet) (query : FeatureVector) (k : Z) :
  (k <= 0)%Z -> nearest ts query k = Err InvalidArgumentError.
Proof.
  intros Hk. unfold nearest. rewrite (proj2 (Z.leb_le k 0) Hk). reflexivity.
Qed.

Lemma nearest_mismatch (ts : TrainingSet) (query : FeatureVector) (k : Z) :
  (0 < k)%Z -> ~ same_dimension query ts ->
  nearest ts query k = Err DimensionMismatchError.
Proof.
  intros Hk Hd. unfold nearest. rewrite (proj2 (Z.leb_gt k 0) Hk).
  rewrite (distances_mismatch query ts Hd). reflexivity.
Qed.

Lemma nearest_too_many (ts : TrainingSet) (query : FeatureVector) (k : Z) :
  (0 < k)%Z -> (Z.of_nat (length ts) < k)%Z -> same_dimension query ts ->
  nearest ts query k = Err InvalidArgumentError.
Proof.
  intros Hk Hn Hd. unfold nearest. rewrite (proj2 (Z.leb_gt k 0) Hk).
  rewrite (distances_ok query ts Hd). simpl.
  rewrite (proj2 (Z.ltb_lt (Z.of_nat (length ts)) k) Hn). reflexivity.
Qed.

Lemma with_distance_length (query : FeatureVector) (ts : TrainingSet) :
  length (with_distance query ts) = length ts.
Proof. apply length_map. Qed.

End NearestFacts.

(** * The first rows of a sorted frame *)

Lemma combine_map_r {A B : Type} (f : A -> B) (l : list A) :
  combine l (map f l) = map (fun a => (a, f a)) l.
Proof. induction l as [|a l IH]; [reflexivity|]. simpl. rewrite IH. reflexivity. Qed.

(** The first [k] rows of a frame sorted by a key: as many rows as asked
    for (all of them when the frame is shorter), in ascending order, and
    each row left out has a key at least as large as every row kept.
    This holds whatever order the sort gives to rows with equal keys. *)
Lemma head_of_sorted {A : Type} (key : A -> R) (k : nat) (df : list A) :
  exists left_out : list A,
    length (Frame.head (Z.of_nat k) (Frame.sort_values key df))
    = Nat.min k (length df)
    /\ Permutation
         (Frame.head (Z.of_nat k) (Frame.sort_values key df) ++ left_out) df
    /\ StronglySorted (fun x y => key x <= key y)
         (Frame.head (Z.of_nat k) (Frame.sort_values key df))
    /\ (forall near far,
          In near (Frame.head (Z.of_nat k) (Frame.sort_values key df)) ->
          In far left_out -> key near <= key far).
Proof.
  rewrite head_firstn by lia. rewrite Nat2Z.id.
  set (sorted := Frame.sort_values key df).
  assert (Hsorted : StronglySorted (fun x y => key x <= key y)
                      (firstn k sorted ++ skipn k sorted)).
  { rewrite firstn_skipn. apply sort_values_sorted. }
  exists (skipn k sorted). split; [|split; [|split]].
  - rewrite length_firstn. unfold sorted. rewrite sort_values_length.
    reflexivity.
  - rewrite firstn_skipn. apply sort_values_perm.
  - exact (sorted_app_l key _ _ Hsorted).
  - intros near far Hn Hf. exact (sorted_app_le key _ _ Hsorted near far Hn Hf).
Qed.

(** * C2: the search returns the k nearest samples, nearest first *)

(** C2.  For a training set, a query of the training set's dimension and
    [1 <= k <= size], [nearest] pairs every training sample with its
    distance to the query and returns exactly [k] of these pairs: they
    are in ascending order of distance, and no sample left out is
    nearer than a sample returned.  The chapter's [cancer_dist]
    ([sort_values(by="dist_from_new").head(5)]) does the same by hand on
    a table of at least five rows: five rows with their distances, in
    ascending order, no row left out being nearer than a row kept.
    Nothing here depends on the order given to equal distances. *)
Theorem nearest_returns_the_k_smallest_ascending :
  forall (ts : Knn.TrainingSet) (query : Knn.FeatureVector) (k : Z),
    (1 <= k <= Z.of_nat (length ts))%Z ->
    Knn.same_dimension query ts ->
    exists res rest : Knn.NeighborResult,
      Knn.nearest ts query k = Ok res
      /\ length res = Z.to_nat k
      /\ Permutation (res ++ rest) (Knn.with_distance query ts)
      /\ (forall s d, In (s, d) res ->
            In s ts /\ Knn.distance query (Knn.features s) = Ok d)
      /\ StronglySorted (fun p1 p2 => snd p1 <= snd p2) res
      /\ (forall p r, In p res -> In r rest -> snd p <= snd r)
      /\ (forall (cancer : list Cancer.Row) (p c : R),
            (5 <= length cancer)%nat ->
            exists left_out : list (Cancer.Row * R),
              length (Cancer.cancer_dist cancer p c) = 5%nat
              /\ Permutation (Cancer.cancer_dist cancer p c ++ left_out)
                   (combine cancer (Cancer.dist_from_new cancer p c))
              /\ StronglySorted (fun x y => snd x <= snd y)
                   (Cancer.cancer_dist cancer p c)
              /\ (forall near far,
                    In near (Cancer.cancer_dist cancer p c) ->
                    In far left_out -> snd near <= snd far)).
Proof.
  intros ts query k Hk Hd.
  set (sorted := Frame.sort_values snd (Knn.with_distance query ts)).
  exists (firstn (Z.to_nat k) sorted), (skipn (Z.to_nat k) sorted).
  assert (Hperm : Permutation sorted (Knn.with_distance query ts))
    by apply sort_values_perm.
  assert (Hsorted : StronglySorted (fun p1 p2 => snd p1 <= snd p2)
                      (firstn (Z.to_nat k) sorted ++ skipn (Z.to_nat k) sorted)).
  { rewrite firstn_skipn. apply (sort_values_sorted (A := Knn.LabeledSample * R)). }
  split; [apply nearest_ok; assumption|].
  split.
  { rewrite length_firstn. unfold sorted.
    rewrite sort_values_length, with_distance_length. lia. }
  split; [rewrite firstn_skipn; exact Hperm|].
  split.
  { intros s d Hin.
    assert (Hin' : In (s, d) (Knn.with_distance query ts)).
    { apply (Permutation_in _ Hperm).
      rewrite <- (firstn_skipn (Z.to_nat k) sorted).
      apply in_or_app. left. exact Hin. }
    unfold Knn.with_distance in Hin'. apply in_map_iff in Hin'.
    destruct Hin' as [s' [Heq Hs']]. injection Heq as -> <-.
    split; [exact Hs'|].
    apply distance_ok. unfold Knn.same_dimension in Hd.
    rewrite Forall_forall in Hd. symmetry. apply Hd, Hs'. }
  split; [exact (sorted_app_l snd _ _ Hsorted)|].
  split.
  - intros p r Hp Hr. exact (sorted_app_le snd _ _ Hsorted p r Hp Hr).
  - intros cancer p c Hrows. unfold Cancer.cancer_dist.
    destruct (head_of_sorted (@snd Cancer.Row R) 5
                (combine cancer (Cancer.dist_from_new cancer p c)))
      as [left_out [Hlen [Hp [Hs Hfar]]]].
    exists left_out. split; [|split; [|split]]; try assumption.
    change (Z.of_nat 5) with 5%Z in Hlen. rewrite Hlen.
    rewrite length_combine, dist_from_new_rows, length_map. lia.
Qed.

Lemma nearest_returns_the_k_smallest_ascending_witness :
  let ts := [Knn.mkSample [3] "M"%string; Knn.mkSample [1] "B"%string;
             Knn.mkSample [2] "M"%string] in
  (1 <= 2 <= Z.of_nat (length ts))%Z
  /\ Knn.same_dimension [0] ts
  /\ exists res rest : Knn.NeighborResult,
      Knn.nearest ts [0] 2 = Ok res
      /\ length res = Z.to_nat 2
      /\ Permutation (res ++ rest) (Knn.with_distance [0] ts)
      /\ StronglySorted (fun p1 p2 => snd p1 <= snd p2) res
      /\ (forall p r, In p res -> In r rest -> snd p <= snd r).
Proof.
  intros ts.
  assert (Hk : (1 <= 2 <= Z.of_nat (length ts))%Z) by (simpl; lia).
  assert (Hd : Knn.same_dimension [0] ts)
    by (repeat constructor).
  split; [exact Hk|]. split; [exact Hd|].
  destruct (nearest_returns_the_k_smallest_ascending ts [0] 2 Hk Hd)
    as [res [rest [Hn [Hl [Hp [_ [Hs [Hf _]]]]]]]].
  exists res, rest. repeat split; assumption.
Defined.

(** * Facts on the classes and the vote *)

Section VoteFacts.
Import Knn.

Lemma ltb_lt (a b : string) : String.ltb a b = true <-> String_as_OT.lt a b.
Proof.
  rewrite <- String_as_OT.cmp_lt. unfold String.ltb, String_as_OT.cmp.
  destruct (String.compare a b); split; congruence.
Qed.

Lemma label_lt_trans (a b c : Label) : label_lt a b -> label_lt b c -> label_lt a c.
Proof.
  unfold label_lt. rewrite !ltb_lt. apply String_as_OT.lt_trans.
Qed.

Lemma label_lt_connected (a b : Label) :
  String.eqb a b = false -> String.ltb a b = false -> label_lt b a.
Proof.
  unfold label_lt, String.ltb. intros Hne Hlt.
  rewrite (String.compare_antisym b a).
  destruct (String.compare a b) eqn:E; simpl; try reflexivity; try discriminate.
  apply String.compare_eq_iff in E. subst b.
  rewrite String.eqb_refl in Hne. discriminate.
Qed.

Lemma insert_label_in (l x : Label) (cs : list Label) :
  In x (insert_label l cs) <-> x = l \/ In x cs.
Proof.
  induction cs as [|c cs IH]; simpl.
  - intuition.
  - destruct (String.eqb l c) eqn:E.
    + apply String.eqb_eq in E. subst c. simpl. intuition.
    + destruct (String.ltb l c); simpl; [intuition|].
      rewrite IH. intuition.
Qed.

Lemma np_unique_in (y : list Label) (x : Label) : In x (np_unique y) <-> In x y.
Proof.
  induction y as [|l y IH]; simpl; [reflexivity|].
  rewrite insert_label_in, IH. intuition.
Qed.

Lemma insert_label_sorted (l : Label) (cs : list Label) :
  StronglySorted label_lt cs -> StronglySorted label_lt (insert_label l cs).
Proof.
  induction cs as [|c cs IH]; intros Hs; simpl.
  - constructor; constructor.
  - inversion Hs as [|? ? Hcs Hc]; subst.
    destruct (String.eqb l c) eqn:E; [exact Hs|].
    destruct (String.ltb l c) eqn:L.
    + constructor; [exact Hs|]. constructor; [exact L|].
      eapply Forall_impl; [|exact Hc].
      intros z Hz. exact (label_lt_trans l c z L Hz).
    + constructor; [apply IH, Hcs|].
      rewrite Forall_forall. intros z Hz. apply insert_label_in in Hz.
      destruct Hz as [-> | Hz].
      * apply label_lt_connected; assumption.
      * rewrite Forall_forall in Hc. apply Hc, Hz.
Qed.

Lemma np_unique_sorted (y : list Label) : StronglySorted label_lt (np_unique y).
Proof.
  induction y as [|l y IH]; simpl; [constructor|].
  apply insert_label_sorted, IH.
Qed.

Lemma sorted_after (before after : list Label) (w : Label) :
  StronglySorted label_lt (before ++ w :: after) ->
  forall x, In x after -> label_lt w x.
Proof.
  induction before as [|b before IH]; simpl; intros Hs x Hx.
  - inversion Hs as [|? ? _ Hw]; subst.
    rewrite Forall_forall in Hw. apply Hw, Hx.
  - inversion Hs as [|? ? Hrest _]; subst. apply (IH Hrest x Hx).
Qed.

Lemma scan_spec (labels : list Label) (rest : list Label) :
  forall cur,
  exists before after,
    cur :: rest = before ++ scan labels cur rest :: after
    /\ (forall x, In x before ->
          (votes x labels < votes (scan labels cur rest) labels)%nat)
    /\ (forall x, In x after ->
          (votes x labels <= votes (scan labels cur rest) labels)%nat).
Proof.
  induction rest as [|y rest IH]; intros cur; simpl.
  - exists [], []. repeat split; intros x [].
  - destruct (Nat.ltb (votes cur labels) (votes y labels)) eqn:E.
    + apply Nat.ltb_lt in E.
      destruct (IH y) as [before [after [Heq [Hb Ha]]]].
      exists (cur :: before), after. split; [simpl; rewrite <- Heq; reflexivity|].
      split; [|exact Ha].
      intros x [<- | Hx]; [|apply Hb, Hx].
      assert (Hy : (votes y labels <= votes (scan labels y rest) labels)%nat).
      { destruct before as [|z before].
        - injection Heq as Hy _. rewrite <- Hy. lia.
        - injection Heq as Hz _. subst z. apply Nat.lt_le_incl, Hb. left. reflexivity. }
      lia.
    + apply Nat.ltb_ge in E.
      destruct (IH cur) as [before [after [Heq [Hb Ha]]]].
      destruct before as [|z before].
      * injection Heq as Hc Hr. exists [], (y :: after).
        split; [simpl; rewrite <- Hc; do 2 f_equal; exact Hr|].
        split; [intros x []|].
        intros x [<- | Hx]; [rewrite <- Hc; exact E | apply Ha, Hx].
      * injection Heq as Hz Hr. subst z.
        exists (cur :: y :: before), after.
        split; [simpl; do 2 f_equal; exact Hr|].
        split; [|exact Ha].
        assert (Hc : (votes cur labels < votes (scan labels cur rest) labels)%nat)
          by (apply Hb; left; reflexivity).
        intros x [<- | [<- | Hx]]; [exact Hc | lia |].
        apply Hb. right. exact Hx.
Qed.

(** The class elected: it occurs among the neighbours, no class has
    more votes, and every other class with as many votes comes after it
    in the order of the labels. *)
Lemma vote_spec (y labels : list Label) (l : Label) :
  (forall x, In x labels -> In x y) ->
  labels <> [] ->
  vote (np_unique y) labels = Some l ->
  In l labels
  /\ (forall x, (votes x labels <= votes l labels)%nat)
  /\ (forall x, x <> l -> votes x labels = votes l labels -> label_lt l x).
Proof.
  intros Hsub Hne Hv. unfold vote in Hv.
  destruct (np_unique y) as [|c rest] eqn:Hu; [discriminate|].
  injection Hv as <-.
  destruct (scan_spec labels rest c) as [before [after [Heq [Hb Ha]]]].
  set (w := scan labels c rest) in *.
  assert (Hcls : forall x, In x labels -> In x (before ++ w :: after)).
  { intros x Hx. rewrite <- Heq, <- Hu. apply np_unique_in, Hsub, Hx. }
  assert (Hmax : forall x, (votes x labels <= votes w labels)%nat).
  { intros x. destruct (in_dec string_dec x labels) as [Hin | Hnin].
    - apply Hcls in Hin. apply in_app_or in Hin.
      destruct Hin as [Hin | [<- | Hin]];
        [apply Nat.lt_le_incl, Hb, Hin | lia | apply Ha, Hin].
    - unfold votes at 1.
      rewrite (proj1 (count_occ_not_In string_dec _ _) Hnin). lia. }
  assert (Hw : In w labels).
  { destruct labels as [|z labels]; [congruence|].
    assert (Hz : (0 < votes z (z :: labels))%nat).
    { unfold votes. apply count_occ_In. left. reflexivity. }
    specialize (Hmax z).
    apply (proj2 (count_occ_In string_dec (z :: labels) w)).
    unfold votes in *. lia. }
  split; [exact Hw|]. split; [exact Hmax|].
  intros x Hx Hvx.
  assert (Hxin : In x labels).
  { apply (proj2 (count_occ_In string_dec labels x)).
    pose proof (proj1 (count_occ_In string_dec labels w) Hw) as H0.
    unfold votes in Hvx. lia. }
  apply Hcls in Hxin. apply in_app_or in Hxin.
  destruct Hxin as [Hxin | [Hxin | Hxin]].
  - apply Hb in Hxin. lia.
  - congruence.
  - apply (sorted_after before after w); [|exact Hxin].
    rewrite <- Heq, <- Hu. apply np_unique_sorted.
Qed.

Lemma neighbor_labels_app (r1 r2 : NeighborResult) :
  neighbor_labels (r1 ++ r2) = neighbor_labels r1 ++ neighbor_labels r2.
Proof. apply map_app. Qed.

Lemma neighbor_labels_with_distance (query : FeatureVector) (ts : TrainingSet) :
  neighbor_labels (with_distance query ts) = map label ts.
Proof.
  unfold neighbor_labels, with_distance. rewrite map_map. reflexivity.
Qed.

(** What a successful search leaves in the result: [k] samples, a part
    of the training set. *)
Lemma nearest_votes (ts : TrainingSet) (query : FeatureVector) (k : Z)
    (res : NeighborResult) :
  nearest ts query k = Ok res ->
  length res = Z.to_nat k
  /\ (1 <= k)%Z
  /\ (forall l, (votes l (neighbor_labels res) <= votes l (map label ts))%nat)
  /\ (forall l, In l (neighbor_labels res) -> In l (map label ts)).
Proof.
  intros H. apply nearest_inv in H. destruct H as [Hk [Hd ->]].
  set (sorted := Frame.sort_values snd (with_distance query ts)).
  assert (Hperm : Permutation (neighbor_labels sorted) (map label ts)).
  { rewrite <- (neighbor_labels_with_distance query ts).
    apply Permutation_map, sort_values_perm. }
  assert (Hsplit : neighbor_labels sorted
                   = neighbor_labels (firstn (Z.to_nat k) sorted)
                     ++ neighbor_labels (skipn (Z.to_nat k) sorted)).
  { rewrite <- neighbor_labels_app, firstn_skipn. reflexivity. }
  split.
  { rewrite length_firstn. unfold sorted.
    rewrite sort_values_length, with_distance_length. lia. }
  split; [lia|]. split.
  - intros l. unfold votes.
    rewrite <- (proj1 (Permutation_count_occ string_dec _ _) Hperm l).
    rewrite Hsplit, count_occ_app. apply Nat.le_add_r.
  - intros l Hl. apply (Permutation_in _ Hperm).
    rewrite Hsplit. apply in_or_app. left. exact Hl.
Qed.

Lemma build_inv (ts : TrainingSet) (k : Z) (clf : Classifier) :
  build ts k = Ok clf ->
  (0 < k)%Z /\ ts <> []
  /\ clf = mkClassifier ts k (np_unique (map label ts)).
Proof.
  unfold build. destruct (k <=? 0)%Z eqn:E; [discriminate|].
  apply Z.leb_gt in E. destruct ts as [|s ts]; [discriminate|].
  intros H. injection H as <-. repeat split; [exact E | discriminate].
Qed.

Lemma build_ok (ts : TrainingSet) (k : Z) :
  (0 < k)%Z -> ts <> [] ->
  build ts k = Ok (mkClassifier ts k (np_unique (map label ts))).
Proof.
  intros Hk Hts. unfold build.
  rewrite (proj2 (Z.leb_gt k 0) Hk). destruct ts; [congruence | reflexivity].
Qed.

(** A prediction after a successful search: the vote over the
    neighbours' labels. *)
Lemma predictOne_of_nearest (ts : TrainingSet) (k : Z) (clf : Classifier)
    (query : FeatureVector) (res : NeighborResult) :
  build ts k = Ok clf ->
  nearest ts query k = Ok res ->
  exists l,
    predictOne clf query = Ok l
    /\ In l (neighbor_labels res)
    /\ (forall x, (votes x (neighbor_labels res)
                   <= votes l (neighbor_labels res))%nat)
    /\ (forall x, x <> l ->
          votes x (neighbor_labels res) = votes l (neighbor_labels res) ->
          label_lt l x).
Proof.
  intros Hb Hres. apply build_inv in Hb. destruct Hb as [_ [_ ->]].
  destruct (nearest_votes ts query k res Hres) as [Hlen [Hk [_ Hin]]].
  assert (Hne : neighbor_labels res <> []).
  { intros Hnil. apply (f_equal (@length _)) in Hnil.
    unfold neighbor_labels in Hnil. rewrite length_map in Hnil.
    simpl in Hnil. lia. }
  destruct (vote (np_unique (map label ts)) (neighbor_labels res)) as [l|] eqn:Hv.
  - exists l. split.
    + unfold predictOne. simpl. rewrite Hres. simpl. rewrite Hv. reflexivity.
    + apply (vote_spec (map label ts)); assumption.
  - exfalso. unfold vote in Hv.
    destruct (np_unique (map label ts)) as [|c rest] eqn:Hu; [|discriminate].
    destruct (neighbor_labels res) as [|z zs] eqn:Hz; [congruence|].
    assert (Hzin : In z (np_unique (map label ts))).
    { apply np_unique_in, Hin. left. reflexivity. }
    rewrite Hu in Hzin. exact Hzin.
Qed.

End VoteFacts.

(** * Worked searches on a line *)

Lemma euclid_1d (x y : R) : Knn.euclid [x] [y] = Rabs (x - y).
Proof.
  unfold Knn.euclid. simpl.
  replace ((x - y) * ((x - y) * 1) + 0) with (Rsqr (x - y)) by (unfold Rsqr; ring).
  apply sqrt_Rsqr_abs.
Qed.

Lemma Rabs_minus_from_0 (d : R) : 0 <= d -> Rabs (0 - d) = d.
Proof. intros H. unfold Rabs. destruct (Rcase_abs (0 - d)); lra. Qed.

Ltac eval_sort :=
  repeat (cbn [Frame.sort_values Frame.insert_row snd fst];
          first [ rewrite Rleb_true by lra | rewrite Rleb_false by lra ]);
  cbn [Frame.sort_values Frame.insert_row snd fst].

Lemma nearest_seven_on_a_line :
  Knn.nearest seven_on_a_line [0] 5 = Ok five_neighbors.
Proof.
  rewrite nearest_ok; [|simpl; lia | repeat constructor].
  unfold seven_on_a_line, Knn.with_distance. cbn [map Knn.features].
  rewrite !euclid_1d, !Rabs_minus_from_0 by lra.
  eval_sort. reflexivity.
Qed.

Lemma nearest_two_points :
  Knn.nearest two_points [0] 2 = Ok two_neighbors.
Proof.
  rewrite nearest_ok; [|simpl; lia | repeat constructor].
  unfold two_points, Knn.with_distance. cbn [map Knn.features].
  rewrite !euclid_1d, !Rabs_minus_from_0 by lra.
  eval_sort. reflexivity.
Qed.

(** * C3: the prediction is the label with the most votes *)

(** C3.  For a classifier built with [k] on a training set of at least
    [k] samples and a query of the training set's dimension, [predictOne]
    tallies the labels of the [k] nearest neighbours: there are [k]
    training samples, none farther from the query than any sample left
    out, such that the prediction is the label of one of them and no
    label has more votes among them.  When these neighbours are five
    points labelled B, M, M, M, B at the distances 0.88, 0.98, 1.14,
    1.26, 1.28, the prediction is M. *)
Theorem predictOne_returns_the_majority_label :
  forall (ts : Knn.TrainingSet) (k : Z) (clf : Knn.Classifier)
         (query : Knn.FeatureVector),
    Knn.build ts k = Ok clf ->
    (k <= Z.of_nat (length ts))%Z ->
    Knn.same_dimension query ts ->
    exists (res rest : Knn.NeighborResult) (l : Knn.Label),
      Knn.nearest ts query k = Ok res
      /\ length res = Z.to_nat k
      /\ Permutation (res ++ rest) (Knn.with_distance query ts)
      /\ (forall p r, In p res -> In r rest -> snd p <= snd r)
      /\ Knn.predictOne clf query = Ok l
      /\ In l (Knn.neighbor_labels res)
      /\ (forall x, (Knn.votes x (Knn.neighbor_labels res)
                     <= Knn.votes l (Knn.neighbor_labels res))%nat)
      /\ (map (fun p => (Knn.label (fst p), snd p)) res
          = [("B"%string, 0.88); ("M"%string, 0.98); ("M"%string, 1.14);
             ("M"%string, 1.26); ("B"%string, 1.28)]
          -> l = "M"%string).
Proof.
  intros ts k clf query Hb Hkn Hd.
  destruct (build_inv _ _ _ Hb) as [Hk0 _].
  assert (Hk : (1 <= k <= Z.of_nat (length ts))%Z) by lia.
  set (sorted := Frame.sort_values snd (Knn.with_distance query ts)).
  pose proof (nearest_ok ts query k Hk Hd) as Hres. fold sorted in Hres.
  assert (Hsorted : StronglySorted (fun p1 p2 => snd p1 <= snd p2)
                      (firstn (Z.to_nat k) sorted ++ skipn (Z.to_nat k) sorted)).
  { rewrite firstn_skipn. apply (sort_values_sorted (A := Knn.LabeledSample * R)). }
  destruct (predictOne_of_nearest ts k clf query _ Hb Hres)
    as [l [Hp [Hin [Hmax _]]]].
  exists (firstn (Z.to_nat k) sorted), (skipn (Z.to_nat k) sorted), l.
  split; [exact Hres|]. split.
  { rewrite length_firstn. unfold sorted.
    rewrite sort_values_length, with_distance_length. lia. }
  split; [rewrite firstn_skipn; apply sort_values_perm|].
  split; [intros p r Hpin Hr; exact (sorted_app_le snd _ _ Hsorted p r Hpin Hr)|].
  split; [exact Hp|]. split; [exact Hin|]. split; [exact Hmax|].
  intros Hfive.
  set (res := firstn (Z.to_nat k) sorted) in *.
  assert (Hlabels : Knn.neighbor_labels res
                    = ["B"; "M"; "M"; "M"; "B"]%string).
  { unfold Knn.neighbor_labels.
    transitivity (map fst (map (fun p => (Knn.label (fst p), snd p)) res)).
    - rewrite map_map. apply map_ext. reflexivity.
    - rewrite Hfive. reflexivity. }
  specialize (Hmax "M"%string). rewrite Hlabels in Hmax, Hin.
  destruct Hin as [<- | [<- | [<- | [<- | [<- | []]]]]];
    try reflexivity; vm_compute in Hmax; lia.
Qed.

(** The seven points are not in order and [k = 5] is below their
    number: the first five rows would vote B, the whole table would
    vote B, and the five nearest vote M. *)
Lemma predictOne_returns_the_majority_label_witness :
  exists clf : Knn.Classifier,
    Knn.build seven_on_a_line 5 = Ok clf
    /\ (5 <= Z.of_nat (length seven_on_a_line))%Z
    /\ Knn.same_dimension [0] seven_on_a_line
    /\ Knn.predictOne clf [0] = Ok "M"%string.
Proof.
  exists (Knn.mkClassifier seven_on_a_line 5
            (Knn.np_unique (map Knn.label seven_on_a_line))).
  assert (Hb : Knn.build seven_on_a_line 5
               = Ok (Knn.mkClassifier seven_on_a_line 5
                       (Knn.np_unique (map Knn.label seven_on_a_line))))
    by reflexivity.
  assert (Hk : (5 <= Z.of_nat (length seven_on_a_line))%Z) by (simpl; lia).
  assert (Hd : Knn.same_dimension [0] seven_on_a_line)
    by (repeat constructor).
  split; [exact Hb|]. split; [exact Hk|]. split; [exact Hd|].
  destruct (predictOne_returns_the_majority_label seven_on_a_line 5 _ [0]
              Hb Hk Hd)
    as [res [rest [l [Hn [_ [_ [_ [Hp [_ [_ HM]]]]]]]]]].
  rewrite Hp. f_equal. apply HM.
  rewrite nearest_seven_on_a_line in Hn. injection Hn as <-. reflexivity.
Defined.

(** * C7: a tie of votes *)

(** C7, as stated, fails.  Of the two training points, the malignant one
    is nearer to the query than the benign one; with [k = 2] each label
    has one vote, and the prediction is "B", the label of the farther
    neighbour, not "M", the label of the nearest one. *)
Lemma vote_tie_does_not_go_to_the_nearest :
  exists clf : Knn.Classifier,
    Knn.build two_points 2 = Ok clf
    /\ Knn.nearest two_points [0] 2
       = Ok [(Knn.mkSample [1] "M"%string, 1); (Knn.mkSample [2] "B"%string, 2)]
    /\ Knn.votes "M"%string (Knn.neighbor_labels two_neighbors)
       = Knn.votes "B"%string (Knn.neighbor_labels two_neighbors)
    /\ Knn.predictOne clf [0] = Ok "B"%string
    /\ Knn.predictOne clf [0] <> Ok "M"%string.
Proof.
  exists (Knn.mkClassifier two_points 2
            (Knn.np_unique (map Knn.label two_points))).
  split; [reflexivity|]. split; [exact nearest_two_points|].
  split; [reflexivity|].
  assert (Hp : Knn.predictOne
                 (Knn.mkClassifier two_points 2
                    (Knn.np_unique (map Knn.label two_points))) [0]
               = Ok "B"%string).
  { unfold Knn.predictOne. cbn [Knn.trainingSet Knn.n_neighbors Knn.classes_].
    rewrite nearest_two_points. reflexivity. }
  split; [exact Hp|]. rewrite Hp. discriminate.
Qed.

(** C7, amended.  When two different labels [l1] and [l2] share the
    highest number of votes among the k nearest neighbours, [predictOne]
    still returns a label; it has as many votes as [l1], and every other
    label with that many votes comes after it in the order of the
    labels.  So a tie goes to the tied label that sorts first, whatever
    the distances of the neighbours that carry it. *)
Theorem predictOne_breaks_vote_ties_by_label_order :
  forall (ts : Knn.TrainingSet) (k : Z) (clf : Knn.Classifier)
         (query : Knn.FeatureVector) (res : Knn.NeighborResult)
         (l1 l2 : Knn.Label),
    Knn.build ts k = Ok clf ->
    Knn.nearest ts query k = Ok res ->
    l1 <> l2 ->
    In l1 (Knn.neighbor_labels res) ->
    In l2 (Knn.neighbor_labels res) ->
    Knn.votes l1 (Knn.neighbor_labels res)
    = Knn.votes l2 (Knn.neighbor_labels res) ->
    (forall x, (Knn.votes x (Knn.neighbor_labels res)
                <= Knn.votes l1 (Knn.neighbor_labels res))%nat) ->
    exists l : Knn.Label,
      Knn.predictOne clf query = Ok l
      /\ Knn.votes l (Knn.neighbor_labels res)
         = Knn.votes l1 (Knn.neighbor_labels res)
      /\ (forall x, x <> l ->
            Knn.votes x (Knn.neighbor_labels res)
            = Knn.votes l1 (Knn.neighbor_labels res) ->
            String.ltb l x = true).
Proof.
  intros ts k clf query res l1 l2 Hb Hres _ _ _ _ Htop.
  destruct (predictOne_of_nearest ts k clf query res Hb Hres)
    as [l [Hp [_ [Hmax Htie]]]].
  assert (Hl : Knn.votes l (Knn.neighbor_labels res)
               = Knn.votes l1 (Knn.neighbor_labels res)).
  { apply Nat.le_antisymm; [apply Htop | apply Hmax]. }
  exists l. split; [exact Hp|]. split; [exact Hl|].
  intros x Hx Hvx. apply Htie; [exact Hx|]. rewrite Hl. exact Hvx.
Qed.

Lemma two_points_tie :
  forall x, (Knn.votes x (Knn.neighbor_labels two_neighbors)
             <= Knn.votes "M"%string (Knn.neighbor_labels two_neighbors))%nat.
Proof.
  intros x.
  assert (HM : Knn.votes "M"%string (Knn.neighbor_labels two_neighbors) = 1%nat)
    by (vm_compute; reflexivity).
  rewrite HM. unfold two_neighbors, Knn.votes, Knn.neighbor_labels.
  cbn [map fst Knn.label count_occ].
  destruct (string_dec "M" x) as [HM' | HnM];
    destruct (string_dec "B" x) as [HB | HnB];
    try lia.
  rewrite <- HM' in HB. discriminate.
Qed.

Lemma predictOne_breaks_vote_ties_by_label_order_witness :
  exists (clf : Knn.Classifier) (l : Knn.Label),
    Knn.build two_points 2 = Ok clf
    /\ Knn.nearest two_points [0] 2 = Ok two_neighbors
    /\ Knn.predictOne clf [0] = Ok l
    /\ Knn.votes l (Knn.neighbor_labels two_neighbors)
       = Knn.votes "M"%string (Knn.neighbor_labels two_neighbors)
    /\ (forall x, x <> l ->
          Knn.votes x (Knn.neighbor_labels two_neighbors)
          = Knn.votes "M"%string (Knn.neighbor_labels two_neighbors) ->
          String.ltb l x = true).
Proof.
  assert (Hb : Knn.build two_points 2
               = Ok (Knn.mkClassifier two_points 2
                       (Knn.np_unique (map Knn.label two_points))))
    by reflexivity.
  assert (H1 : "M"%string <> "B"%string) by discriminate.
  assert (H2 : In "M"%string (Knn.neighbor_labels two_neighbors))
    by (left; reflexivity).
  assert (H3 : In "B"%string (Knn.neighbor_labels two_neighbors))
    by (right; left; reflexivity).
  destruct (predictOne_breaks_vote_ties_by_label_order two_points 2 _ [0]
              two_neighbors "M"%string "B"%string Hb nearest_two_points
              H1 H2 H3 eq_refl two_points_tie) as [l [Hp [Hv Ht]]].
  exists (Knn.mkClassifier two_points 2
            (Knn.np_unique (map Knn.label two_points))), l.
  split; [exact Hb|]. split; [exact nearest_two_points|].
  split; [exact Hp|]. split; [exact Hv | exact Ht].
Defined.

(** * C8: an out-of-range k *)

Lemma predictOne_k_too_large (ts : Knn.TrainingSet) (k : Z)
    (clf : Knn.Classifier) (query : Knn.FeatureVector) :
  Knn.build ts k = Ok clf ->
  (Z.of_nat (length ts) < k)%Z ->
  Knn.same_dimension query ts ->
  Knn.predictOne clf query = Err InvalidArgumentError.
Proof.
  intros Hb Hk Hd. apply build_inv in Hb. destruct Hb as [Hk0 [_ ->]].
  unfold Knn.predictOne. simpl.
  rewrite (nearest_too_many ts query k Hk0 Hk Hd). reflexivity.
Qed.

Lemma predictOne_mismatch (ts : Knn.TrainingSet) (k : Z)
    (clf : Knn.Classifier) (query : Knn.FeatureVector) :
  Knn.build ts k = Ok clf ->
  ~ Knn.same_dimension query ts ->
  Knn.predictOne clf query = Err DimensionMismatchError.
Proof.
  intros Hb Hd. apply build_inv in Hb. destruct Hb as [Hk0 [_ ->]].
  unfold Knn.predictOne. simpl.
  rewrite (nearest_mismatch ts query k Hk0 Hd). reflexivity.
Qed.

Lemma predictOne_k_in_range (ts : Knn.TrainingSet) (k : Z)
    (clf : Knn.Classifier) (query : Knn.FeatureVector) :
  Knn.build ts k = Ok clf ->
  (k <= Z.of_nat (length ts))%Z ->
  (exists l, Knn.predictOne clf query = Ok l)
  \/ Knn.predictOne clf query = Err DimensionMismatchError.
Proof.
  intros Hb Hk. destruct (build_inv _ _ _ Hb) as [Hk0 [_ Hclf]].
  assert (Hr : (1 <= k <= Z.of_nat (length ts))%Z) by lia.
  destruct (Knn.distances query ts) as [all|e] eqn:Hall.
  - left. apply distances_inv in Hall. destruct Hall as [Hd _].
    destruct (predictOne_of_nearest ts k clf query _ Hb
                (nearest_ok ts query k Hr Hd)) as [l [Hl _]].
    exists l. exact Hl.
  - right. apply (predictOne_mismatch ts k clf query Hb).
    intros Hd. rewrite (distances_ok query ts Hd) in Hall. discriminate.
Qed.

(** C8, as stated, fails.  On ten training samples with [k = 11],
    [build] does not fail: it returns a classifier, and the failure
    comes only when that classifier predicts. *)
Lemma k_above_the_sample_count_passes_construction :
  length ten_points = 10%nat
  /\ exists clf : Knn.Classifier,
      Knn.build ten_points 11 = Ok clf
      /\ Knn.build ten_points 11 <> Err InvalidArgumentError
      /\ Knn.predictOne clf [0] = Err InvalidArgumentError.
Proof.
  split; [reflexivity|].
  exists (Knn.mkClassifier ten_points 11
            (Knn.np_unique (map Knn.label ten_points))).
  assert (Hb : Knn.build ten_points 11
               = Ok (Knn.mkClassifier ten_points 11
                       (Knn.np_unique (map Knn.label ten_points))))
    by reflexivity.
  split; [exact Hb|]. split; [rewrite Hb; discriminate|].
  apply (predictOne_k_too_large ten_points 11 _ [0] Hb); [simpl; lia|].
  unfold ten_points. simpl. repeat constructor.
Qed.

(** C8, amended.  On a training set that is not empty: [nearest] fails
    with [InvalidArgumentError] whenever [k <= 0], and whenever [k]
    exceeds the number of training samples and the query has the
    dimension of the training samples (a query of another dimension is
    refused first, with [DimensionMismatchError]); [build] fails with
    [InvalidArgumentError] exactly when [k <= 0] (so [build] with
    [k = 0] fails, at construction); for every [k >= 1] [build] returns
    a classifier, and when [k] exceeds the number of training samples no
    prediction of that classifier succeeds: it fails with
    [InvalidArgumentError] for a query of the training dimension and
    with [DimensionMismatchError] for any other query (so with ten
    samples and [k = 11] the failure occurs at prediction time); when
    [k] is in range no prediction fails with [InvalidArgumentError]. *)
Theorem out_of_range_k_is_refused :
  forall (ts : Knn.TrainingSet) (k : Z),
    ts <> [] ->
    ((k <= 0)%Z ->
       forall query, Knn.nearest ts query k = Err InvalidArgumentError)
    /\ ((Z.of_nat (length ts) < k)%Z ->
          forall query,
            (Knn.same_dimension query ts ->
             Knn.nearest ts query k = Err InvalidArgumentError)
            /\ (~ Knn.same_dimension query ts ->
                Knn.nearest ts query k = Err DimensionMismatchError))
    /\ ((k <= 0)%Z <-> Knn.build ts k = Err InvalidArgumentError)
    /\ Knn.build ts 0 = Err InvalidArgumentError
    /\ ((1 <= k)%Z ->
          exists clf,
            Knn.build ts k = Ok clf
            /\ ((Z.of_nat (length ts) < k)%Z ->
                  forall query,
                    (Knn.same_dimension query ts ->
                     Knn.predictOne clf query = Err InvalidArgumentError)
                    /\ (~ Knn.same_dimension query ts ->
                        Knn.predictOne clf query
                        = Err DimensionMismatchError))
            /\ ((k <= Z.of_nat (length ts))%Z ->
                  forall query,
                    Knn.predictOne clf query <> Err InvalidArgumentError)).
Proof.
  intros ts k Hts. split; [|split; [|split; [|split]]].
  - intros Hk query. apply nearest_nonpositive, Hk.
  - intros Hk query.
    assert (Hpos : (0 < k)%Z) by lia. split.
    + intros Hd. apply (nearest_too_many ts query k Hpos Hk Hd).
    + intros Hd. apply (nearest_mismatch ts query k Hpos Hd).
  - split.
    + intros Hk. unfold Knn.build.
      rewrite (proj2 (Z.leb_le k 0) Hk). reflexivity.
    + intros Hb. destruct (Z_le_gt_dec k 0) as [Hle | Hgt]; [exact Hle|].
      rewrite build_ok in Hb by (try lia; exact Hts). discriminate.
  - reflexivity.
  - intros Hk.
    exists (Knn.mkClassifier ts k (Knn.np_unique (map Knn.label ts))).
    assert (Hb : Knn.build ts k
                 = Ok (Knn.mkClassifier ts k (Knn.np_unique (map Knn.label ts))))
      by (apply build_ok; [lia | exact Hts]).
    split; [exact Hb|]. split.
    + intros Hbig query. split.
      * intros Hd. exact (predictOne_k_too_large ts k _ query Hb Hbig Hd).
      * intros Hd. exact (predictOne_mismatch ts k _ query Hb Hd).
    + intros Hin query.
      destruct (predictOne_k_in_range ts k _ query Hb Hin) as [[l Hl] | He];
        [rewrite Hl | rewrite He]; discriminate.
Qed.

Lemma out_of_range_k_is_refused_witness :
  five_points <> []
  /\ Knn.build five_points 0 = Err InvalidArgumentError
  /\ Knn.nearest five_points [0] 6 = Err InvalidArgumentError
  /\ Knn.nearest five_points [0; 0] 6 = Err DimensionMismatchError.
Proof.
  assert (Hne : five_points <> []) by discriminate.
  split; [exact Hne|].
  pose proof (out_of_range_k_is_refused five_points 6 Hne) as H.
  destruct H as [_ [Hbig _]].
  assert (Hk : (Z.of_nat (length five_points) < 6)%Z) by (simpl; lia).
  split; [|split].
  - exact (proj1 (proj2 (proj2 (proj2
             (out_of_range_k_is_refused five_points 0 Hne))))).
  - apply (proj1 (Hbig Hk [0])). repeat constructor.
  - apply (proj2 (Hbig Hk [0; 0])). intros Hd.
    inversion Hd as [|? ? Hlen _]. discriminate.
Defined.

(** * C10: with at most three rare samples, seven votes never elect the rare label *)

Lemma two_label_votes (a b : Knn.Label) (labels : list Knn.Label) :
  a <> b ->
  (forall x, In x labels -> x = a \/ x = b) ->
  (Knn.votes a labels + Knn.votes b labels = length labels)%nat.
Proof.
  intros Hab. unfold Knn.votes.
  induction labels as [|x labels IH]; intros Hall; [reflexivity|].
  assert (IH' : (count_occ string_dec labels a + count_occ string_dec labels b
                 = length labels)%nat).
  { apply IH. intros y Hy. apply Hall. right. exact Hy. }
  simpl.
  destruct (Hall x (or_introl eq_refl)) as [-> | ->].
  - destruct (string_dec a a) as [_|Hn]; [|congruence].
    destruct (string_dec a b) as [Hc|_]; [congruence|]. lia.
  - destruct (string_dec b b) as [_|Hn]; [|congruence].
    destruct (string_dec b a) as [Hc|_]; [congruence|]. lia.
Qed.

Lemma majority_of_seven_votes :
  forall (ts : Knn.TrainingSet) (rare other : Knn.Label)
         (clf : Knn.Classifier) (query : Knn.FeatureVector),
    rare <> other ->
    (forall s, In s ts -> Knn.label s = rare \/ Knn.label s = other) ->
    (Knn.votes rare (map Knn.label ts) <= 3)%nat ->
    (7 <= length ts)%nat ->
    Knn.build ts 7 = Ok clf ->
    Knn.same_dimension query ts ->
    Knn.predictOne clf query = Ok other.
Proof.
  intros ts rare other clf query Hne Hlab Hrare Hseven Hb Hd.
  assert (Hk : (1 <= 7 <= Z.of_nat (length ts))%Z) by lia.
  pose proof (nearest_ok ts query 7 Hk Hd) as Hres.
  set (res := firstn (Z.to_nat 7)
                (Frame.sort_values snd (Knn.with_distance query ts))) in *.
  destruct (predictOne_of_nearest ts 7 clf query res Hb Hres)
    as [l [Hp [Hl [Hmax _]]]].
  destruct (nearest_votes ts query 7 res Hres) as [Hlen [_ [Hsub Hin]]].
  assert (Htwo : forall x, In x (Knn.neighbor_labels res) -> x = rare \/ x = other).
  { intros x Hx. apply Hin in Hx. apply in_map_iff in Hx.
    destruct Hx as [s [<- Hs]]. apply Hlab, Hs. }
  pose proof (two_label_votes rare other _ Hne Htwo) as Hsum.
  assert (Hlen' : length (Knn.neighbor_labels res) = 7%nat).
  { unfold Knn.neighbor_labels. rewrite length_map, Hlen. reflexivity. }
  specialize (Hsub rare). specialize (Hmax other).
  rewrite Hp. f_equal.
  destruct (Htwo l Hl) as [-> | ->]; [|reflexivity].
  exfalso. lia.
Qed.

Section RareCancer.
Import Cancer.

Lemma rare_cancer_labels (cancer : list Row) :
  exists benign malignant : list Row,
    map Class (rare_cancer cancer)
    = map (fun _ => "Benign"%string) benign
      ++ map (fun _ => "Malignant"%string) malignant
    /\ (length malignant <= 3)%nat.
Proof.
  exists (query_Class "B" cancer), (Frame.head 3 (query_Class "M" cancer)).
  split.
  - unfold rare_cancer, apply_Class, Frame.concat.
    rewrite !map_map, map_app. f_equal.
    + apply map_ext_in. intros r Hr. simpl.
      apply filter_In in Hr. destruct Hr as [_ Hr].
      apply String.eqb_eq in Hr. rewrite Hr. reflexivity.
    + apply map_ext_in. intros r Hr. simpl.
      rewrite head_firstn in Hr by lia. apply in_firstn in Hr.
      apply filter_In in Hr. destruct Hr as [_ Hr]. rewrite Hr. reflexivity.
  - rewrite head_firstn by lia. rewrite length_firstn.
    change (Z.to_nat 3) with 3%nat. apply Nat.le_min_l.
Qed.

Lemma votes_constant_other (a b : string) {A : Type} (l : list A) :
  a <> b -> Knn.votes a (map (fun _ => b) l) = 0%nat.
Proof.
  intros Hab. unfold Knn.votes. induction l as [|x l IH]; [reflexivity|].
  simpl. destruct (string_dec b a); [congruence | exact IH].
Qed.

Lemma votes_le_length (a : string) (l : list string) :
  (Knn.votes a l <= length l)%nat.
Proof. unfold Knn.votes. apply count_occ_bound. Qed.

Lemma rare_cancer_malignant_votes (cancer : list Row) :
  (Knn.votes "Malignant"%string (map Knn.label (map to_sample (rare_cancer cancer)))
   <= 3)%nat.
Proof.
  destruct (rare_cancer_labels cancer) as [benign [malignant [Heq Hlen]]].
  assert (Hmap : map Knn.label (map to_sample (rare_cancer cancer))
                 = map Class (rare_cancer cancer))
    by (rewrite map_map; apply map_ext; reflexivity).
  rewrite Hmap, Heq. unfold Knn.votes. rewrite count_occ_app.
  fold (Knn.votes "Malignant"%string (map (fun _ : Row => "Benign"%string) benign)).
  rewrite votes_constant_other by discriminate.
  pose proof (votes_le_length "Malignant"%string
                (map (fun _ : Row => "Malignant"%string) malignant)) as H.
  unfold Knn.votes in H. rewrite length_map in H. lia.
Qed.

Lemma rare_cancer_two_labels (cancer : list Row) (s : Knn.LabeledSample) :
  In s (map to_sample (rare_cancer cancer)) ->
  Knn.label s = "Malignant"%string \/ Knn.label s = "Benign"%string.
Proof.
  intros Hs. apply in_map_iff in Hs. destruct Hs as [r [<- Hr]].
  unfold rare_cancer, apply_Class in Hr. rewrite map_map in Hr.
  apply in_map_iff in Hr. destruct Hr as [r0 [<- _]]. simpl.
  destruct (String.eqb (Class r0) "M"); auto.
Qed.

End RareCancer.

(** C10, as stated, fails.  With one malignant and four benign training
    points (at most three of the rare label, at least four of the
    other), the classifier with [k = 7] is built, but its predictions
    fail: there are only five samples to take seven neighbours from. *)
Lemma five_samples_cannot_give_seven_votes :
  (Knn.votes "Malignant"%string (map Knn.label one_and_four) <= 3)%nat
  /\ (4 <= Knn.votes "Benign"%string (map Knn.label one_and_four))%nat
  /\ exists clf : Knn.Classifier,
      Knn.build one_and_four 7 = Ok clf
      /\ Knn.predictOne clf [2; 2] = Err InvalidArgumentError
      /\ Knn.predictOne clf [2; 2] <> Ok "Benign"%string.
Proof.
  split; [vm_compute; lia|]. split; [vm_compute; lia|].
  exists (Knn.mkClassifier one_and_four 7
            (Knn.np_unique (map Knn.label one_and_four))).
  assert (Hb : Knn.build one_and_four 7
               = Ok (Knn.mkClassifier one_and_four 7
                       (Knn.np_unique (map Knn.label one_and_four))))
    by reflexivity.
  assert (Hp : Knn.predictOne
                 (Knn.mkClassifier one_and_four 7
                    (Knn.np_unique (map Knn.label one_and_four))) [2; 2]
               = Err InvalidArgumentError).
  { apply (predictOne_k_too_large one_and_four 7 _ [2; 2] Hb);
      [simpl; lia | repeat constructor]. }
  split; [exact Hb|]. split; [exact Hp|]. rewrite Hp. discriminate.
Qed.

(** C10, amended.  Take a training set of at least seven samples with
    two labels, at most three samples of the rare one and at least four
    of the other.  A classifier built on it with [k = 7] predicts the
    other label for every query of the training set's dimension: of the
    seven votes at most three are for the rare label.  The chapter's
    [rare_cancer] (all benign rows and three malignant rows) is such a
    training set once it has seven rows, so a classifier built on it
    with [k = 7] answers "Benign" for every perimeter and concavity. *)
Theorem seven_neighbors_never_elect_a_class_of_three :
  forall (ts : Knn.TrainingSet) (rare other : Knn.Label)
         (clf : Knn.Classifier) (query : Knn.FeatureVector),
    rare <> other ->
    (forall s, In s ts -> Knn.label s = rare \/ Knn.label s = other) ->
    (Knn.votes rare (map Knn.label ts) <= 3)%nat ->
    (4 <= Knn.votes other (map Knn.label ts))%nat ->
    (7 <= length ts)%nat ->
    Knn.build ts 7 = Ok clf ->
    Knn.same_dimension query ts ->
    Knn.predictOne clf query = Ok other
    /\ (forall (cancer : list Cancer.Row) (knn_spec : Knn.Classifier)
               (perimeter concavity : R),
          (7 <= length (Cancer.rare_cancer cancer))%nat ->
          Knn.build (map Cancer.to_sample (Cancer.rare_cancer cancer)) 7
          = Ok knn_spec ->
          Knn.predictOne knn_spec [perimeter; concavity] = Ok "Benign"%string).
Proof.
  intros ts rare other clf query Hne Hlab Hrare _ Hseven Hb Hd. split.
  - exact (majority_of_seven_votes ts rare other clf query
             Hne Hlab Hrare Hseven Hb Hd).
  - intros cancer knn_spec perimeter concavity Hrows Hbuild.
    set (train := map Cancer.to_sample (Cancer.rare_cancer cancer)) in *.
    apply (majority_of_seven_votes train "Malignant"%string "Benign"%string
             knn_spec [perimeter; concavity]); auto.
    + discriminate.
    + intros s. apply rare_cancer_two_labels.
    + apply rare_cancer_malignant_votes.
    + unfold train. rewrite length_map. exact Hrows.
    + unfold Knn.same_dimension, train. rewrite Forall_forall.
      intros s Hs. apply in_map_iff in Hs. destruct Hs as [r [<- _]].
      reflexivity.
Qed.

Lemma seven_neighbors_never_elect_a_class_of_three_witness :
  exists clf : Knn.Classifier,
    Knn.build seven_points 7 = Ok clf
    /\ Knn.predictOne clf [2; 2] = Ok "Benign"%string.
Proof.
  exists (Knn.mkClassifier seven_points 7
            (Knn.np_unique (map Knn.label seven_points))).
  split; [reflexivity|].
  refine (proj1 (seven_neighbors_never_elect_a_class_of_three
                   seven_points "Malignant"%string "Benign"%string
                   _ [2; 2] _ _ _ _ _ eq_refl _)).
  - discriminate.
  - intros s Hs. simpl in Hs.
    repeat (destruct Hs as [<- | Hs]; [simpl; auto|]). contradiction.
  - vm_compute. lia.
  - vm_compute. lia.
  - simpl. lia.
  - repeat constructor.
Defined.

(** * C5: the oversampling cell *)

Section Upsample.
Import Cancer.

Lemma filter_all {A : Type} (f : A -> bool) (l : list A) :
  (forall x, In x l -> f x = true) -> filter f l = l.
Proof.
  induction l as [|x l IH]; intros H; [reflexivity|].
  simpl. rewrite (H x (or_introl eq_refl)). f_equal.
  apply IH. intros y Hy. apply H. right. exact Hy.
Qed.

Lemma filter_none {A : Type} (f : A -> bool) (l : list A) :
  (forall x, In x l -> f x = false) -> filter f l = [].
Proof.
  induction l as [|x l IH]; intros H; [reflexivity|].
  simpl. rewrite (H x (or_introl eq_refl)).
  apply IH. intros y Hy. apply H. right. exact Hy.
Qed.

Lemma resample_in {A : Type} (a : list A) (n : nat) (draws : list nat) (r : A) :
  In r (Frame.resample a n draws) -> In r a.
Proof.
  unfold Frame.resample. intros H. apply in_flat_map in H.
  destruct H as [i [_ Hi]].
  destruct (nth_error a i) as [r'|] eqn:E; [|contradiction].
  destruct Hi as [<- | []]. apply (nth_error_In _ _ E).
Qed.

Lemma resample_drawn {A : Type} (a : list A) (draws : list nat) (i : nat) (r : A) :
  In i draws -> nth_error a i = Some r ->
  In r (Frame.resample a (length draws) draws).
Proof.
  intros Hi Hr. unfold Frame.resample. rewrite firstn_all.
  apply in_flat_map. exists i. split; [exact Hi|]. rewrite Hr. left. reflexivity.
Qed.

Lemma resample_length {A : Type} (a : list A) (n : nat) (draws : list nat) :
  Frame.valid_draws (length a) n draws = true ->
  length (Frame.resample a n draws) = n.
Proof.
  unfold Frame.valid_draws. intros H. apply andb_true_iff in H.
  destruct H as [Hn Hall]. apply Nat.eqb_eq in Hn. subst n.
  unfold Frame.resample. rewrite firstn_all.
  induction draws as [|i draws IH]; [reflexivity|].
  simpl in Hall. apply andb_true_iff in Hall. destruct Hall as [Hi Hall].
  apply Nat.ltb_lt in Hi. simpl.
  destruct (nth_error a i) as [r|] eqn:E.
  - simpl. f_equal. apply IH, Hall.
  - apply nth_error_None in E. lia.
Qed.

Lemma query_Class_in (c : string) (df : list Row) (r : Row) :
  In r (query_Class c df) <-> In r df /\ Class r = c.
Proof.
  unfold query_Class. rewrite filter_In, String.eqb_eq. reflexivity.
Qed.

Lemma query_Class_app (c : string) (df1 df2 : list Row) :
  query_Class c (df1 ++ df2) = query_Class c df1 ++ query_Class c df2.
Proof. apply filter_app. Qed.

Lemma query_Class_same (c : string) (df : list Row) :
  (forall r, In r df -> Class r = c) -> query_Class c df = df.
Proof.
  intros H. apply filter_all. intros r Hr. apply String.eqb_eq, H, Hr.
Qed.

Lemma query_Class_other (c c' : string) (df : list Row) :
  c <> c' -> (forall r, In r df -> Class r = c') -> query_Class c df = [].
Proof.
  intros Hc H. apply filter_none. intros r Hr. apply String.eqb_neq.
  rewrite (H r Hr). congruence.
Qed.

Lemma upsample_classes (rare : list Row) (draws : list nat) (r : Row) :
  In r (malignant_cancer_upsample rare draws) ->
  Class r = "Malignant"%string.
Proof.
  intros H. apply resample_in in H. apply query_Class_in in H. apply H.
Qed.

Lemma benign_classes (rare : list Row) (r : Row) :
  In r (benign_cancer rare) -> Class r = "Benign"%string.
Proof. intros H. apply query_Class_in in H. apply H. Qed.

End Upsample.

(** C5, as stated, fails.  With three malignant and four benign rows and
    the draws 0, 0, 0, 2 (the four indices below 3 that the generator
    seeded with 100 yields), the second malignant row is absent from the
    oversampled table.  With two malignant rows and one benign row, the
    cell returns one row of each class, which is not the majority size
    2, and the majority rows are not kept. *)
Lemma upsampling_can_lose_a_minority_row :
  (Frame.valid_draws (length (Cancer.malignant_cancer three_rare))
     (length (Cancer.benign_cancer three_rare)) [0; 0; 0; 2]%nat = true
   /\ In (Cancer.mkRow 2 1 1 1 "Malignant") (Cancer.malignant_cancer three_rare)
   /\ ~ In (Cancer.mkRow 2 1 1 1 "Malignant")
          (Cancer.upsampled_cancer three_rare [0; 0; 0; 2]%nat))
  /\ (Frame.valid_draws (length (Cancer.malignant_cancer mostly_malignant))
        (length (Cancer.benign_cancer mostly_malignant)) [0]%nat = true
      /\ Cancer.class_count "Malignant" mostly_malignant = 2%nat
      /\ Cancer.class_count "Malignant"
           (Cancer.upsampled_cancer mostly_malignant [0]%nat) = 1%nat
      /\ Cancer.class_count "Benign"
           (Cancer.upsampled_cancer mostly_malignant [0]%nat) = 1%nat).
Proof.
  split.
  - split; [reflexivity|]. split; [right; left; reflexivity|].
    intros H.
    change (In (Cancer.mkRow 2 1 1 1 "Malignant")
              [Cancer.mkRow 1 0 0 0 "Malignant"; Cancer.mkRow 1 0 0 0 "Malignant";
               Cancer.mkRow 1 0 0 0 "Malignant"; Cancer.mkRow 3 2 1 0 "Malignant";
               Cancer.mkRow 4 0 1 0 "Benign"; Cancer.mkRow 5 1 0 0 "Benign";
               Cancer.mkRow 6 2 0 1 "Benign"; Cancer.mkRow 7 2 2 1 "Benign"]) in H.
    repeat (destruct H as [H | H];
            [apply (f_equal Cancer.ID) in H; discriminate|]).
    contradiction.
  - repeat split; reflexivity.
Qed.

(** C5, amended.  On a table with at least one malignant row and at
    least as many benign rows, and for any draws the generator can
    return, the oversampled table holds exactly [M] malignant and [M]
    benign rows, [M] being the size of the larger (benign) class; the
    benign rows are the original ones in their order; every malignant
    row of the result is one of the original malignant rows; and an
    original malignant row is present whenever its index is among the
    draws. *)
Theorem upsampled_cancer_is_balanced :
  forall (rare : list Cancer.Row) (draws : list nat),
    Frame.valid_draws (length (Cancer.malignant_cancer rare))
      (length (Cancer.benign_cancer rare)) draws = true ->
    (1 <= length (Cancer.malignant_cancer rare)
     <= length (Cancer.benign_cancer rare))%nat ->
    let M := Nat.max (Cancer.class_count "Malignant" rare)
               (Cancer.class_count "Benign" rare) in
    let out := Cancer.upsampled_cancer rare draws in
    Cancer.class_count "Malignant" out = M
    /\ Cancer.class_count "Benign" out = M
    /\ length out = (2 * M)%nat
    /\ Cancer.benign_cancer out = Cancer.benign_cancer rare
    /\ (forall r, In r (Cancer.malignant_cancer out) ->
          In r (Cancer.malignant_cancer rare))
    /\ (forall i r, In i draws ->
          nth_error (Cancer.malignant_cancer rare) i = Some r -> In r out).
Proof.
  intros rare draws Hdraws [_ Hmaj] M out.
  assert (HM : M = length (Cancer.benign_cancer rare)).
  { unfold M, Cancer.class_count.
    fold (Cancer.malignant_cancer rare). fold (Cancer.benign_cancer rare).
    apply Nat.max_r, Hmaj. }
  assert (Hup : length (Cancer.malignant_cancer_upsample rare draws)
                = length (Cancer.benign_cancer rare))
    by (apply resample_length, Hdraws).
  assert (HqM : Cancer.query_Class "Malignant" out
                = Cancer.malignant_cancer_upsample rare draws).
  { unfold out, Cancer.upsampled_cancer, Frame.concat.
    rewrite query_Class_app.
    rewrite (query_Class_same "Malignant" _ (upsample_classes rare draws)).
    rewrite (query_Class_other "Malignant" "Benign" _); [apply app_nil_r| |].
    - discriminate.
    - apply benign_classes. }
  assert (HqB : Cancer.query_Class "Benign" out = Cancer.benign_cancer rare).
  { unfold out, Cancer.upsampled_cancer, Frame.concat.
    rewrite query_Class_app.
    rewrite (query_Class_other "Benign" "Malignant" _);
      [| discriminate | apply upsample_classes].
    apply (query_Class_same "Benign"), benign_classes. }
  split; [unfold Cancer.class_count; rewrite HqM, Hup; symmetry; exact HM|].
  split; [unfold Cancer.class_count; rewrite HqB; symmetry; exact HM|].
  split.
  { unfold out, Cancer.upsampled_cancer, Frame.concat.
    rewrite length_app, Hup, HM. lia. }
  split; [exact HqB|].
  split.
  { unfold Cancer.malignant_cancer at 1. rewrite HqM.
    intros r Hr. apply (resample_in _ _ _ _ Hr). }
  intros i r Hi Hr.
  unfold out, Cancer.upsampled_cancer, Frame.concat. apply in_or_app. left.
  unfold Cancer.malignant_cancer_upsample.
  unfold Frame.valid_draws in Hdraws. apply andb_true_iff in Hdraws.
  destruct Hdraws as [Hn _]. apply Nat.eqb_eq in Hn. rewrite <- Hn.
  apply (resample_drawn _ _ i r Hi Hr).
Qed.

Lemma upsampled_cancer_is_balanced_witness :
  let out := Cancer.upsampled_cancer small_rare [0; 0; 1]%nat in
  Frame.valid_draws (length (Cancer.malignant_cancer small_rare))
    (length (Cancer.benign_cancer small_rare)) [0; 0; 1]%nat = true
  /\ (1 <= length (Cancer.malignant_cancer small_rare)
      <= length (Cancer.benign_cancer small_rare))%nat
  /\ Cancer.class_count "Malignant" out = 3%nat
  /\ Cancer.class_count "Benign" out = 3%nat.
Proof.
  intros out.
  assert (Hd : Frame.valid_draws (length (Cancer.malignant_cancer small_rare))
                 (length (Cancer.benign_cancer small_rare)) [0; 0; 1]%nat = true)
    by reflexivity.
  assert (Hm : (1 <= length (Cancer.malignant_cancer small_rare)
                <= length (Cancer.benign_cancer small_rare))%nat)
    by (simpl; lia).
  split; [exact Hd|]. split; [exact Hm|].
  pose proof (upsampled_cancer_is_balanced small_rare [0; 0; 1]%nat Hd Hm) as H.
  split; [exact (proj1 H) | exact (proj1 (proj2 H))].
Defined.

(** * C4: centring and scaling *)

Section ScalerFacts.
Import Scaler.



































Lemma fit_ok (t : Table) :
  t <> [] -> Forall (fun c => c <> []) t ->
  fit t = Ok (map (fun c => mkParams (mean c) (scale_of c)) t).
Proof.
  intros Ht Hcols. unfold fit.
  assert (H1 : existsb (fun c => Nat.eqb (length c) 0) t = false).
  { clear Ht. induction Hcols as [|c t Hc _ IH]; [reflexivity|].
    simpl. rewrite IH. destruct c; [congruence | reflexivity]. }
  assert (H2 : Nat.eqb (length t) 0 = false)
    by (destruct t; [congruence | reflexivity]).
  rewrite H1, H2. reflexivity.
Qed.










End ScalerFacts.





(** * Further properties of the chapter's cells *)

(** ** Class names *)

(** X1.  [class_dscp] returns "Malignant" for "M" and "Benign" for "B"
    and leaves every other value as it is; it never returns "M" or "B";
    applying it twice is applying it once; and applying it after the
    chapter's lambda ("Malignant" for "M", "Benign" otherwise) changes
    nothing. *)
Theorem class_dscp_is_idempotent :
  Cancer.class_dscp "M" = "Malignant"%string
  /\ Cancer.class_dscp "B" = "Benign"%string
  /\ Cells.spell_out "M" = "Malignant"%string
  /\ forall x : string,
       Cancer.class_dscp (Cancer.class_dscp x) = Cancer.class_dscp x
       /\ Cancer.class_dscp (Cells.spell_out x) = Cells.spell_out x
       /\ Cancer.class_dscp x <> "M"%string
       /\ Cancer.class_dscp x <> "B"%string
       /\ (x <> "M"%string -> x <> "B"%string -> Cancer.class_dscp x = x)
       /\ (x <> "M"%string -> Cells.spell_out x = "Benign"%string).
Proof.
  split; [reflexivity|]. split; [reflexivity|]. split; [reflexivity|].
  intros x. unfold Cancer.class_dscp, Cells.spell_out.
  destruct (String.eqb x "M") eqn:EM.
  - apply String.eqb_eq in EM.
    repeat split; try reflexivity; try discriminate;
      intros H; contradiction.
  - destruct (String.eqb x "B") eqn:EB.
    + apply String.eqb_eq in EB.
      repeat split; try reflexivity; try discriminate.
      intros _ H. contradiction.
    + rewrite EM, EB. apply String.eqb_neq in EM, EB.
      repeat split; auto.
Qed.

Section RareCancerCounts.
Import Cancer.

Lemma class_count_votes (c : string) (df : list Row) :
  class_count c df = Knn.votes c (map Class df).
Proof.
  unfold class_count, query_Class, Knn.votes.
  induction df as [|r df IH]; [reflexivity|].
  simpl. destruct (String.eqb (Class r) c) eqn:E.
  - apply String.eqb_eq in E.
    destruct (string_dec (Class r) c); [simpl; f_equal; exact IH | contradiction].
  - apply String.eqb_neq in E.
    destruct (string_dec (Class r) c); [contradiction | exact IH].
Qed.

Lemma votes_constant_same (a : string) {A : Type} (l : list A) :
  Knn.votes a (map (fun _ => a) l) = length l.
Proof.
  unfold Knn.votes. induction l as [|x l IH]; [reflexivity|].
  simpl. destruct (string_dec a a); [f_equal; exact IH | congruence].
Qed.

Lemma rare_cancer_classes (cancer : list Row) :
  map Class (rare_cancer cancer)
  = map (fun _ => "Benign"%string) (query_Class "B" cancer)
    ++ map (fun _ => "Malignant"%string)
         (firstn 3 (query_Class "M" cancer)).
Proof.
  unfold rare_cancer, apply_Class, Frame.concat.
  rewrite !map_map, map_app, head_firstn by lia. f_equal.
  - apply map_ext_in. intros r Hr. simpl.
    apply filter_In in Hr. destruct Hr as [_ Hr].
    apply String.eqb_eq in Hr. rewrite Hr. reflexivity.
  - apply map_ext_in. intros r Hr. simpl.
    apply in_firstn in Hr.
    apply filter_In in Hr. destruct Hr as [_ Hr]. rewrite Hr. reflexivity.
Qed.

(** The rows of [rare_cancer], one by one. *)
Lemma rare_cancer_rows (cancer : list Row) :
  rare_cancer cancer
  = map (set_Class "Benign") (query_Class "B" cancer)
    ++ map (set_Class "Malignant") (firstn 3 (query_Class "M" cancer)).
Proof.
  unfold rare_cancer, apply_Class, Frame.concat.
  rewrite !map_map, map_app, head_firstn by lia. f_equal.
  - apply map_ext_in. intros r Hr.
    apply filter_In in Hr. destruct Hr as [_ Hr].
    apply String.eqb_eq in Hr. unfold set_Class. simpl. rewrite Hr.
    reflexivity.
  - apply map_ext_in. intros r Hr.
    apply in_firstn in Hr.
    apply filter_In in Hr. destruct Hr as [_ Hr].
    apply String.eqb_eq in Hr. unfold set_Class. simpl. rewrite Hr.
    reflexivity.
Qed.

End RareCancerCounts.

(** X2.  [rare_cancer] holds exactly the rows of class "B", in their
    order and with "Benign" for their class, followed by the first three
    rows of class "M" (all of them when there are fewer than three), in
    their order and with "Malignant" for their class; the other columns
    of these rows are unchanged, and rows of any other class are left
    out. *)
Theorem rare_cancer_keeps_benign_and_three_malignant :
  forall cancer : list Cancer.Row,
    Cancer.rare_cancer cancer
    = map (Cancer.set_Class "Benign") (Cancer.query_Class "B" cancer)
      ++ map (Cancer.set_Class "Malignant")
           (firstn 3 (Cancer.query_Class "M" cancer))
    /\ map (fun r => (Cancer.ID r, Cancer.Perimeter r, Cancer.Concavity r,
                      Cancer.Symmetry r)) (Cancer.rare_cancer cancer)
       = map (fun r => (Cancer.ID r, Cancer.Perimeter r, Cancer.Concavity r,
                        Cancer.Symmetry r))
           (Cancer.query_Class "B" cancer
            ++ firstn 3 (Cancer.query_Class "M" cancer))
    /\ Cancer.class_count "Benign" (Cancer.rare_cancer cancer)
    = Cancer.class_count "B" cancer
    /\ Cancer.class_count "Malignant" (Cancer.rare_cancer cancer)
       = Nat.min 3 (Cancer.class_count "M" cancer)
    /\ length (Cancer.rare_cancer cancer)
       = (Cancer.class_count "B" cancer
          + Nat.min 3 (Cancer.class_count "M" cancer))%nat
    /\ (forall r, In r (Cancer.rare_cancer cancer) ->
          Cancer.Class r = "Benign"%string
          \/ Cancer.Class r = "Malignant"%string).
Proof.
  intros cancer.
  pose proof (rare_cancer_classes cancer) as Hc.
  assert (Hlen3 : length (firstn 3 (Cancer.query_Class "M" cancer))
                  = Nat.min 3 (Cancer.class_count "M" cancer))
    by (rewrite length_firstn; reflexivity).
  split; [apply rare_cancer_rows|].
  split.
  { rewrite rare_cancer_rows, !map_app, !map_map. reflexivity. }
  split; [|split; [|split]].
  - rewrite class_count_votes, Hc. unfold Knn.votes.
    rewrite count_occ_app.
    fold (Knn.votes "Benign"%string
            (map (fun _ : Cancer.Row => "Benign"%string)
               (Cancer.query_Class "B" cancer))).
    fold (Knn.votes "Benign"%string
            (map (fun _ : Cancer.Row => "Malignant"%string)
               (firstn 3 (Cancer.query_Class "M" cancer)))).
    rewrite votes_constant_same, votes_constant_other by discriminate.
    unfold Cancer.class_count. lia.
  - rewrite class_count_votes, Hc. unfold Knn.votes.
    rewrite count_occ_app.
    fold (Knn.votes "Malignant"%string
            (map (fun _ : Cancer.Row => "Benign"%string)
               (Cancer.query_Class "B" cancer))).
    fold (Knn.votes "Malignant"%string
            (map (fun _ : Cancer.Row => "Malignant"%string)
               (firstn 3 (Cancer.query_Class "M" cancer)))).
    rewrite votes_constant_same, votes_constant_other by discriminate.
    rewrite Hlen3. reflexivity.
  - rewrite <- (length_map Cancer.Class), Hc, length_app, !length_map, Hlen3.
    reflexivity.
  - intros r Hr.
    assert (Hin : In (Cancer.Class r) (map Cancer.Class (Cancer.rare_cancer cancer)))
      by (apply in_map; exact Hr).
    rewrite Hc in Hin. apply in_app_or in Hin.
    destruct Hin as [Hin | Hin]; apply in_map_iff in Hin;
      destruct Hin as [_ [Heq _]]; auto.
Qed.

(** ** Distances from the new point *)


(** X6.  Taking symmetry as a third predictor never brings a row nearer:
    row by row, the distance of [cancer_dist2] is at least the distance
    of [cancer_dist], and the two are equal for a row whose symmetry is
    that of the new observation. *)
Theorem a_third_predictor_never_shortens_a_distance :
  forall (cancer : list Cancer.Row) (p c s : R),
    Forall2 (fun r dd =>
               fst dd <= snd dd
               /\ (Cancer.Symmetry r = s -> fst dd = snd dd))
      cancer
      (combine (Cancer.dist_from_new cancer p c)
         (Cancer.dist_from_new2 cancer p c s)).
Proof.
  intros cancer p c s.
  rewrite dist_from_new_rows, dist_from_new2_rows.
  induction cancer as [|r cancer IH]; simpl; constructor; [|exact IH].
  unfold Knn.euclid. simpl. split.
  - apply sqrt_le_1_alt.
    pose proof (pow2_ge_0 (Cancer.Symmetry r - s)) as H. simpl in H. lra.
  - intros ->. f_equal. ring.
Qed.

(** ** The nearest row by [np.argmin] *)

Section ArgminFacts.
Import Cells.

Lemma Rltb_lt (x y : R) : Rltb x y = true <-> x < y.
Proof.
  unfold Rltb. destruct (Rleb y x) eqn:E; simpl.
  - apply Rleb_le in E. split; [discriminate | lra].
  - apply Rleb_gt in E. split; [intros _; exact E | reflexivity].
Qed.

Lemma Rltb_ge (x y : R) : Rltb x y = false <-> y <= x.
Proof.
  unfold Rltb. destruct (Rleb y x) eqn:E; simpl.
  - apply Rleb_le in E. split; [intros _; exact E | reflexivity].
  - apply Rleb_gt in E. split; [discriminate | lra].
Qed.

Lemma argmin_from_spec (a : list R) :
  forall (best_i : nat) (best : R) (i : nat),
    (argmin_from best_i best i a = best_i
     /\ forall x, In x a -> best <= x)
    \/ (exists j,
          argmin_from best_i best i a = (i + j)%nat
          /\ (j < length a)%nat
          /\ nth j a 0 < best
          /\ (forall x, In x a -> nth j a 0 <= x)
          /\ (forall j', (j' < j)%nat -> nth j a 0 < nth j' a 0)).
Proof.
  induction a as [|x a IH]; intros best_i best i; simpl.
  - left. split; [reflexivity | intros x []].
  - destruct (Rltb x best) eqn:E.
    + apply Rltb_lt in E. right.
      destruct (IH i x (S i)) as [[Hr Hmin] | [j [Hr [Hj [Hlt [Hmin Hfirst]]]]]].
      * exists 0%nat. rewrite Hr. repeat split; try lia; try exact E.
        intros y [<- | Hy]; [lra | apply Hmin, Hy].
      * exists (S j). rewrite Hr. split; [lia|]. split; [lia|].
        split; [simpl; lra|]. split.
        -- intros y [<- | Hy]; [simpl; lra | apply Hmin, Hy].
        -- intros [|j'] Hj'; simpl; [exact Hlt | apply Hfirst; lia].
    + apply Rltb_ge in E.
      destruct (IH best_i best (S i))
        as [[Hr Hmin] | [j [Hr [Hj [Hlt [Hmin Hfirst]]]]]].
      * left. split; [exact Hr|].
        intros y [<- | Hy]; [exact E | apply Hmin, Hy].
      * right. exists (S j). rewrite Hr. split; [lia|]. split; [lia|].
        split; [simpl; exact Hlt|]. split.
        -- intros y [<- | Hy]; [simpl; lra | apply Hmin, Hy].
        -- intros [|j'] Hj'; simpl; [lra | apply Hfirst; lia].
Qed.

(** [np.argmin] returns the first index of the least value. *)
Lemma np_argmin_spec (a : list R) (i : nat) :
  np_argmin a = Some i ->
  (i < length a)%nat
  /\ (forall x, In x a -> nth i a 0 <= x)
  /\ (forall j, (j < i)%nat -> nth i a 0 < nth j a 0).
Proof.
  destruct a as [|x a]; [discriminate|]. unfold np_argmin.
  intros H. injection H as <-.
  destruct (argmin_from_spec a 0%nat x 1%nat)
    as [[Hr Hmin] | [j [Hr [Hj [Hlt [Hmin Hfirst]]]]]]; rewrite Hr.
  - split; [simpl; lia|]. split; [|intros j Hj; lia].
    intros y [<- | Hy]; [simpl; lra | apply Hmin, Hy].
  - change (1 + j)%nat with (S j). split; [simpl; lia|]. split.
    + intros y [<- | Hy]; [simpl; lra | apply Hmin, Hy].
    + intros [|j'] Hj'; simpl; [exact Hlt | apply Hfirst; lia].
Qed.

Lemma combine_seq_snoc {A : Type} (l : list A) (x : A) :
  forall s : nat,
    combine (seq s (length (l ++ [x]))) (l ++ [x])
    = combine (seq s (length l)) l ++ [((s + length l)%nat, x)].
Proof.
  induction l as [|y l IH]; intros s; simpl.
  - rewrite Nat.add_0_r. reflexivity.
  - rewrite IH. simpl. rewrite Nat.add_succ_r. reflexivity.
Qed.

Lemma enumerate_snoc {A : Type} (l : list A) (x : A) :
  enumerate (l ++ [x]) = enumerate l ++ [(length l, x)].
Proof. unfold enumerate. apply (combine_seq_snoc l x 0). Qed.

Lemma enumerate_length {A : Type} (l : list A) :
  length (enumerate l) = length l.
Proof.
  unfold enumerate. rewrite length_combine, length_seq. apply Nat.min_id.
Qed.

Lemma pair_distance_nonneg (ia jb : nat * Knn.FeatureVector) :
  0 <= pair_distance ia jb.
Proof.
  unfold pair_distance. destruct (Nat.eqb (fst ia) (fst jb)); [lra|].
  apply sqrt_pos.
Qed.

(** The row of the distance matrix that [my_distances] is cut from: the
    row of the new point. *)
Lemma new_point_row (points : list Knn.FeatureVector)
    (new_point : Knn.FeatureVector) :
  nth (length points) (euclidean_distances (points ++ [new_point])) []
  = map (pair_distance (length points, new_point)) (enumerate points)
    ++ [0].
Proof.
  unfold euclidean_distances. rewrite enumerate_snoc.
  rewrite map_app. simpl.
  rewrite app_nth2; rewrite length_map, enumerate_length; [|lia].
  rewrite Nat.sub_diag. simpl nth.
  rewrite map_app. simpl. f_equal. f_equal.
  unfold pair_distance. simpl. rewrite Nat.eqb_refl. reflexivity.
Qed.

Lemma my_distances_eq (points : list Knn.FeatureVector)
    (new_point : Knn.FeatureVector) :
  my_distances points new_point
  = map (pair_distance (length points, new_point)) (enumerate points).
Proof. unfold my_distances. rewrite new_point_row. apply removelast_last. Qed.

End ArgminFacts.

(** X4.  [my_distances] holds one distance per row of the table, none of
    them negative; the entry that [[:-1]] drops is the 0 on the diagonal
    of the distance matrix.  On a table without rows [np.argmin] has
    nothing to return.  On a table with rows, [np.argmin(my_distances)]
    is the position of a row of the table, so [cancer.loc] finds it: no
    entry of [my_distances] is below the entry at that position, and
    every entry before it is strictly above (the first of several least
    entries is taken). *)
Theorem argmin_of_the_distances_is_a_row_of_the_table :
  forall (points : list Knn.FeatureVector) (new_point : Knn.FeatureVector),
    length (Cells.my_distances points new_point) = length points
    /\ Forall (fun d => 0 <= d) (Cells.my_distances points new_point)
    /\ nth (length points)
         (nth (length points)
            (Cells.euclidean_distances (points ++ [new_point])) []) 1
       = 0
    /\ (points = [] ->
        Cells.np_argmin (Cells.my_distances points new_point) = None)
    /\ (points <> [] ->
        exists i : nat,
          Cells.np_argmin (Cells.my_distances points new_point) = Some i
          /\ (i < length points)%nat
          /\ (forall j, (j < length points)%nat ->
                nth i (Cells.my_distances points new_point) 0
                <= nth j (Cells.my_distances points new_point) 0)
          /\ (forall j, (j < i)%nat ->
                nth i (Cells.my_distances points new_point) 0
                < nth j (Cells.my_distances points new_point) 0)).
Proof.
  intros points new_point.
  assert (Hlen : length (Cells.my_distances points new_point) = length points).
  { rewrite my_distances_eq, length_map. apply enumerate_length. }
  split; [exact Hlen|]. split; [|split; [|split]].
  - rewrite my_distances_eq, Forall_forall. intros d Hd.
    apply in_map_iff in Hd. destruct Hd as [jb [<- _]].
    apply pair_distance_nonneg.
  - rewrite new_point_row, app_nth2;
      rewrite length_map, enumerate_length; [|lia].
    rewrite Nat.sub_diag. reflexivity.
  - intros Hnil. rewrite Hnil. reflexivity.
  - intros Hne.
    destruct (Cells.np_argmin (Cells.my_distances points new_point))
      as [i|] eqn:Harg.
    + destruct (np_argmin_spec _ _ Harg) as [Hi [Hmin Hfirst]].
      exists i. split; [reflexivity|]. split; [lia|]. split; [|exact Hfirst].
      intros j Hj. apply Hmin, nth_In. lia.
    + exfalso.
      destruct (Cells.my_distances points new_point) as [|d ds] eqn:E;
        [|discriminate].
      simpl in Hlen. destruct points; [congruence | discriminate].
Qed.

Lemma argmin_of_the_distances_is_a_row_of_the_table_witness :
  [[2]; [1]] <> []
  /\ exists i : nat,
       Cells.np_argmin (Cells.my_distances [[2]; [1]] [0]) = Some i
       /\ (i < 2)%nat.
Proof.
  assert (Hne : [[2]; [1]] <> []) by discriminate.
  split; [exact Hne|].
  destruct (proj2 (proj2 (proj2 (proj2
              (argmin_of_the_distances_is_a_row_of_the_table
                 [[2]; [1]] [0])))) Hne) as [i [Hi [Hlt _]]].
  exists i. split; [exact Hi | exact Hlt].
Defined.

(** ** The search with three predictors *)

(** X5.  [cancer_dist2], on a table of any size: it holds five rows, or
    every row of a table with fewer than five; the rows come in ascending
    order of their distance; each is a row of the table with its distance
    over the three predictors; and the rows left out, [len(cancer) - 5]
    of them, are each at least as far as every row returned. *)
Theorem cancer_dist2_holds_the_five_nearest_rows :
  forall (cancer : list Cancer.Row) (p c s : R),
    length (Cancer.cancer_dist2 cancer p c s) = Nat.min 5 (length cancer)
    /\ StronglySorted (fun x y => snd x <= snd y)
         (Cancer.cancer_dist2 cancer p c s)
    /\ Forall
         (fun rd =>
            In (fst rd) cancer
            /\ snd rd
               = Knn.euclid
                   [Cancer.Perimeter (fst rd); Cancer.Concavity (fst rd);
                    Cancer.Symmetry (fst rd)] [p; c; s])
         (Cancer.cancer_dist2 cancer p c s)
    /\ exists rest : list (Cancer.Row * R),
         Permutation (Cancer.cancer_dist2 cancer p c s ++ rest)
           (combine cancer (Cancer.dist_from_new2 cancer p c s))
         /\ length rest = (length cancer - 5)%nat
         /\ Forall
              (fun far =>
                 Forall (fun near => snd near <= snd far)
                   (Cancer.cancer_dist2 cancer p c s))
              rest.
Proof.
  intros cancer p c s. unfold Cancer.cancer_dist2.
  rewrite head_firstn by lia. change (Z.to_nat 5) with 5%nat.
  set (all := combine cancer (Cancer.dist_from_new2 cancer p c s)).
  set (sorted := Frame.sort_values snd all).
  assert (Hall : all = map (fun r => (r, Knn.euclid
                     [Cancer.Perimeter r; Cancer.Concavity r; Cancer.Symmetry r]
                     [p; c; s])) cancer).
  { unfold all. rewrite dist_from_new2_rows. apply combine_map_r. }
  assert (Hperm : Permutation sorted all) by apply sort_values_perm.
  assert (Hsorted : StronglySorted (fun x y => snd x <= snd y) sorted)
    by apply (sort_values_sorted (A := Cancer.Row * R)).
  assert (Hlen : length sorted = length cancer).
  { rewrite (Permutation_length Hperm), Hall. apply length_map. }
  rewrite <- (firstn_skipn 5 sorted) in Hsorted.
  split; [rewrite length_firstn, Hlen; reflexivity|].
  split; [apply (sorted_app_l snd _ _ Hsorted)|].
  split.
  - rewrite Forall_forall. intros rd Hrd.
    apply in_firstn in Hrd. apply (Permutation_in _ Hperm) in Hrd.
    rewrite Hall in Hrd. apply in_map_iff in Hrd.
    destruct Hrd as [r [<- Hr]]. split; [exact Hr | reflexivity].
  - exists (skipn 5 sorted). split; [|split].
    + rewrite firstn_skipn. exact Hperm.
    + rewrite length_skipn, Hlen. reflexivity.
    + rewrite Forall_forall. intros far Hfar.
      rewrite Forall_forall. intros near Hnear.
      apply (sorted_app_le snd _ _ Hsorted near far Hnear Hfar).
Qed.

(** ** Evenly spaced values *)

Section LinspaceFacts.
Import Cells.

Lemma np_linspace_length (start stop : R) (num : nat) :
  length (np_linspace start stop num) = num.
Proof. unfold np_linspace. rewrite length_map. apply length_seq. Qed.

Lemma np_linspace_nth (start stop : R) (num i : nat) :
  (i < num)%nat ->
  nth i (np_linspace start stop num) 0
  = start + INR i * ((stop - start) / INR (num - 1)).
Proof.
  intros Hi. unfold np_linspace.
  set (f := fun i : nat => start + INR i * ((stop - start) / INR (num - 1))).
  rewrite (nth_indep _ 0 (f 0%nat))
    by (rewrite length_map, length_seq; exact Hi).
  rewrite map_nth, seq_nth by exact Hi. reflexivity.
Qed.

(** Both ends are included. *)
Lemma np_linspace_ends (start stop : R) (num : nat) :
  (2 <= num)%nat ->
  nth 0 (np_linspace start stop num) 0 = start
  /\ nth (num - 1) (np_linspace start stop num) 0 = stop.
Proof.
  intros Hnum. rewrite !np_linspace_nth by lia. split.
  - simpl. ring.
  - assert (Hpos : INR (num - 1) <> 0).
    { apply not_0_INR. lia. }
    field. exact Hpos.
Qed.

Lemma combine_map_map {A B C : Type} (f : A -> B) (g : A -> C) (l : list A) :
  combine (map f l) (map g l) = map (fun a => (f a, g a)) l.
Proof. induction l as [|a l IH]; [reflexivity|]. simpl. rewrite IH. reflexivity. Qed.

Lemma circle_path_df_points (n0 n1 : R) :
  circle_path_df n0 n1
  = map (fun t => (n0 + 1.4 * cos t, n1 + 1.4 * sin t))
      (np_linspace 0 (2 * PI) 100).
Proof. unfold circle_path_df. apply combine_map_map. Qed.

End LinspaceFacts.

(** X7.  [circle_path_df] holds a hundred points; the first of them is
    the point 1.4 to the right of the new point; and no point of the
    path is farther than 1.4 from the new point in perimeter or in
    concavity, so the path stays within the square of side 2.8 centred
    at the new point. *)
Theorem circle_path_df_stays_within_1_4_of_the_new_point :
  forall new_point0 new_point1 : R,
    length (Cells.circle_path_df new_point0 new_point1) = 100%nat
    /\ nth 0 (Cells.circle_path_df new_point0 new_point1) (0, 0)
       = (new_point0 + 1.4, new_point1)
    /\ Forall
         (fun pt =>
            new_point0 - 1.4 <= fst pt <= new_point0 + 1.4
            /\ new_point1 - 1.4 <= snd pt <= new_point1 + 1.4)
         (Cells.circle_path_df new_point0 new_point1).
Proof.
  intros n0 n1. rewrite circle_path_df_points.
  split; [rewrite length_map; apply np_linspace_length|].
  split.
  - set (f := fun t : R => (n0 + 1.4 * cos t, n1 + 1.4 * sin t)).
    rewrite (nth_indep _ (0, 0) (f 0))
      by (rewrite length_map, np_linspace_length; lia).
    rewrite map_nth.
    destruct (np_linspace_ends 0 (2 * PI) 100) as [H0 _]; [lia|].
    rewrite H0. unfold f. rewrite cos_0, sin_0. f_equal; ring.
  - rewrite Forall_forall. intros pt Hpt. apply in_map_iff in Hpt.
    destruct Hpt as [t [<- _]]. simpl.
    pose proof (COS_bound t) as [Hc1 Hc2].
    pose proof (SIN_bound t) as [Hs1 Hs2].
    repeat split; lra.
Qed.

(** ** Counts and percentages of the classes *)

Section ExploreFacts.
Import Cells Cancer.

Lemma ltb_irrefl (a : string) : String.ltb a a = false.
Proof.
  destruct (String.ltb a a) eqn:E; [|reflexivity].
  apply ltb_lt, String_as_OT.lt_not_eq in E.
  exfalso. apply E. reflexivity.
Qed.

Lemma sorted_labels_nodup (cs : list string) :
  StronglySorted Knn.label_lt cs -> NoDup cs.
Proof.
  induction 1 as [|c cs _ IH Hc]; constructor; [|exact IH].
  intros Hin. rewrite Forall_forall in Hc. specialize (Hc c Hin).
  unfold Knn.label_lt in Hc. rewrite ltb_irrefl in Hc. discriminate.
Qed.

Lemma one_key_matches (x : string) (keys : list string) :
  NoDup keys -> In x keys ->
  total (map (fun c => if string_dec x c then 1%nat else 0%nat) keys) = 1%nat.
Proof.
  induction 1 as [|k keys Hk Hnd IH]; intros Hin; [contradiction|].
  simpl. destruct (string_dec x k) as [->|Hne].
  - f_equal. clear IH Hin. induction keys as [|k' keys IH]; [reflexivity|].
    simpl. destruct (string_dec k k') as [->|_].
    + exfalso. apply Hk. left. reflexivity.
    + apply IH.
      * intros H. apply Hk. right. exact H.
      * inversion Hnd. assumption.
  - destruct Hin as [->|Hin]; [contradiction|]. apply IH, Hin.
Qed.

Lemma total_map_add {A : Type} (f g : A -> nat) (l : list A) :
  total (map (fun a => (f a + g a)%nat) l)
  = (total (map f l) + total (map g l))%nat.
Proof. induction l as [|a l IH]; [reflexivity|]. simpl. rewrite IH. lia. Qed.

(** Over keys that are distinct and cover the labels, the votes add up
    to the number of labels. *)
Lemma votes_add_up (labels keys : list string) :
  NoDup keys -> (forall x, In x labels -> In x keys) ->
  total (map (fun c => Knn.votes c labels) keys) = length labels.
Proof.
  intros Hnd. induction labels as [|x labels IH]; intros Hcover.
  - clear Hnd Hcover. induction keys as [|k keys IHk]; [reflexivity|].
    simpl. exact IHk.
  - assert (Heq : map (fun c => Knn.votes c (x :: labels)) keys
                  = map (fun c => ((if string_dec x c then 1 else 0)
                                   + Knn.votes c labels)%nat) keys).
    { apply map_ext. intros c. unfold Knn.votes. simpl.
      destruct (string_dec x c); reflexivity. }
    rewrite Heq, total_map_add.
    rewrite (one_key_matches x keys Hnd (Hcover x (or_introl eq_refl))).
    simpl. f_equal. apply IH.
    intros y Hy. apply Hcover. right. exact Hy.
Qed.

Lemma explore_cancer_counts (cancer : list Row) :
  total (map count (explore_cancer cancer)) = length cancer.
Proof.
  unfold explore_cancer. rewrite map_map. simpl.
  rewrite (map_ext _ (fun c => Knn.votes c (map Class cancer)))
    by (intros c; apply class_count_votes).
  rewrite votes_add_up.
  - apply length_map.
  - apply sorted_labels_nodup, np_unique_sorted.
  - intros x Hx. apply np_unique_in, Hx.
Qed.

End ExploreFacts.

(** X8.  [explore_cancer] on a table with at least one row: the classes
    come each once, in ascending order; every class listed has its
    number of rows for count, at least one, and a percentage above 0 and
    at most 100; the counts add up to [num_obs]; and a class with no more
    rows than another has no higher percentage. *)
Theorem explore_cancer_counts_add_up_to_the_table :
  forall cancer : list Cancer.Row,
    cancer <> [] ->
    StronglySorted Knn.label_lt
      (map Cells.share_class (Cells.explore_cancer cancer))
    /\ Forall
         (fun e =>
            Cells.count e = Cancer.class_count (Cells.share_class e) cancer
            /\ (1 <= Cells.count e)%nat
            /\ 0 < Cells.percentage e <= 100)
         (Cells.explore_cancer cancer)
    /\ Cells.total (map Cells.count (Cells.explore_cancer cancer))
       = length cancer
    /\ (forall e1 e2,
          In e1 (Cells.explore_cancer cancer) ->
          In e2 (Cells.explore_cancer cancer) ->
          (Cells.count e1 <= Cells.count e2)%nat ->
          Cells.percentage e1 <= Cells.percentage e2).
Proof.
  intros cancer Hne.
  assert (Hn : 0 < INR (length cancer)).
  { apply lt_0_INR. destruct cancer; [congruence | simpl; lia]. }
  split; [|split; [|split]].
  - unfold Cells.explore_cancer. rewrite map_map. simpl. rewrite map_id.
    apply np_unique_sorted.
  - rewrite Forall_forall. intros e He.
    unfold Cells.explore_cancer in He. apply in_map_iff in He.
    destruct He as [c [<- Hc]]. simpl.
    apply (proj1 (np_unique_in _ _)) in Hc.
    assert (Hpos : (1 <= Cancer.class_count c cancer)%nat).
    { rewrite class_count_votes. unfold Knn.votes.
      apply (proj1 (count_occ_In string_dec _ _)) in Hc. exact Hc. }
    assert (Hle : (Cancer.class_count c cancer <= length cancer)%nat).
    { rewrite class_count_votes.
      rewrite <- (length_map Cancer.Class cancer). apply votes_le_length. }
    apply le_INR in Hpos. apply le_INR in Hle. simpl in Hpos.
    split; [reflexivity|]. split; [apply INR_le; simpl; exact Hpos|].
    split.
    + apply Rmult_lt_0_compat; [|lra].
      apply Rdiv_lt_0_compat; lra.
    + assert (H : INR (Cancer.class_count c cancer) / INR (length cancer) <= 1).
      { apply (Rmult_le_reg_r (INR (length cancer))); [exact Hn|].
        unfold Rdiv. rewrite Rmult_assoc, Rinv_l by lra. lra. }
      lra.
  - apply explore_cancer_counts.
  - intros e1 e2 H1 H2 Hle.
    unfold Cells.explore_cancer in H1, H2.
    apply in_map_iff in H1. destruct H1 as [c1 [<- _]].
    apply in_map_iff in H2. destruct H2 as [c2 [<- _]].
    simpl in *. apply le_INR in Hle.
    apply Rmult_le_compat_r; [lra|].
    apply Rmult_le_compat_r; [|exact Hle].
    apply Rlt_le, Rinv_0_lt_compat, Hn.
Qed.

Lemma explore_cancer_counts_add_up_to_the_table_witness :
  mostly_malignant <> []
  /\ Cells.total (map Cells.count (Cells.explore_cancer mostly_malignant))
     = 3%nat.
Proof.
  assert (Hne : mostly_malignant <> []) by discriminate.
  split; [exact Hne|].
  destruct (explore_cancer_counts_add_up_to_the_table mostly_malignant Hne)
    as [_ [_ [Hc _]]].
  exact Hc.
Defined.

(** ** The grid of new observations *)

Section GridFacts.
Import Cells Cancer.

Lemma fold_min_spec (l : list R) :
  forall x : R,
    (fold_left Rmin l x = x \/ In (fold_left Rmin l x) l)
    /\ fold_left Rmin l x <= x
    /\ forall y, In y l -> fold_left Rmin l x <= y.
Proof.
  induction l as [|z l IH]; intros x; simpl.
  - split; [left; reflexivity|]. split; [lra | intros y []].
  - destruct (IH (Rmin x z)) as [Hin [Hle Hall]].
    pose proof (Rmin_l x z) as Hl. pose proof (Rmin_r x z) as Hr.
    split; [|split].
    + destruct Hin as [Heq | Hin]; [|right; right; exact Hin].
      rewrite Heq. unfold Rmin.
      destruct (Rle_dec x z); [left | right; left]; reflexivity.
    + lra.
    + intros y [Hy | Hy]; [rewrite <- Hy; lra | apply Hall, Hy].
Qed.

Lemma fold_max_spec (l : list R) :
  forall x : R,
    (fold_left Rmax l x = x \/ In (fold_left Rmax l x) l)
    /\ x <= fold_left Rmax l x
    /\ forall y, In y l -> y <= fold_left Rmax l x.
Proof.
  induction l as [|z l IH]; intros x; simpl.
  - split; [left; reflexivity|]. split; [lra | intros y []].
  - destruct (IH (Rmax x z)) as [Hin [Hle Hall]].
    pose proof (Rmax_l x z) as Hl. pose proof (Rmax_r x z) as Hr.
    split; [|split].
    + destruct Hin as [Heq | Hin]; [|right; right; exact Hin].
      rewrite Heq. unfold Rmax.
      destruct (Rle_dec x z); [right; left | left]; reflexivity.
    + lra.
    + intros y [Hy | Hy]; [rewrite <- Hy; lra | apply Hall, Hy].
Qed.

(** [col.min()] is a value of the column, below all its values. *)
Lemma col_min_spec (col : list R) :
  col <> [] ->
  exists m, col_min col = Some m /\ In m col /\ forall y, In y col -> m <= y.
Proof.
  destruct col as [|x col]; [congruence|]. intros _.
  destruct (fold_min_spec col x) as [Hin [Hle Hall]].
  exists (fold_left Rmin col x). split; [reflexivity|]. split.
  - destruct Hin as [Heq | Hin]; [left; symmetry; exact Heq | right; exact Hin].
  - intros y [Hy | Hy]; [rewrite <- Hy; exact Hle | apply Hall, Hy].
Qed.

Lemma col_max_spec (col : list R) :
  col <> [] ->
  exists m, col_max col = Some m /\ In m col /\ forall y, In y col -> y <= m.
Proof.
  destruct col as [|x col]; [congruence|]. intros _.
  destruct (fold_max_spec col x) as [Hin [Hle Hall]].
  exists (fold_left Rmax col x). split; [reflexivity|]. split.
  - destruct Hin as [Heq | Hin]; [left; symmetry; exact Heq | right; exact Hin].
  - intros y [Hy | Hy]; [rewrite <- Hy; exact Hle | apply Hall, Hy].
Qed.

(** The values of [np.linspace] stay between its two ends. *)
Lemma np_linspace_range (start stop : R) (num : nat) (v : R) :
  start <= stop -> (2 <= num)%nat ->
  In v (np_linspace start stop num) -> start <= v <= stop.
Proof.
  intros Hle Hnum Hv. unfold np_linspace in Hv.
  apply in_map_iff in Hv. destruct Hv as [i [Hv Hi]]. rewrite <- Hv.
  apply in_seq in Hi.
  assert (HN : 0 < INR (num - 1)) by (apply lt_0_INR; lia).
  assert (Hi0 : 0 <= INR i) by apply pos_INR.
  assert (HiN : INR i <= INR (num - 1)) by (apply le_INR; lia).
  set (N := INR (num - 1)) in *. set (x := INR i) in *.
  assert (Hfrac : 0 <= x / N <= 1).
  { split.
    - apply Rmult_le_pos; [exact Hi0|].
      apply Rlt_le, Rinv_0_lt_compat, HN.
    - apply (Rmult_le_reg_r N); [exact HN|].
      unfold Rdiv. rewrite Rmult_assoc, Rinv_l by lra. lra. }
  replace (start + x * ((stop - start) / N))
    with (start + (stop - start) * (x / N)) by (field; lra).
  split; nra.
Qed.

Lemma np_linspace_start_in (start stop : R) (num : nat) :
  (2 <= num)%nat -> In start (np_linspace start stop num).
Proof.
  intros Hnum. destruct (np_linspace_ends start stop num Hnum) as [H0 _].
  rewrite <- H0 at 1. apply nth_In. rewrite np_linspace_length. lia.
Qed.

Lemma np_linspace_stop_in (start stop : R) (num : nat) :
  (2 <= num)%nat -> In stop (np_linspace start stop num).
Proof.
  intros Hnum. destruct (np_linspace_ends start stop num Hnum) as [_ H1].
  rewrite <- H1 at 1. apply nth_In. rewrite np_linspace_length. lia.
Qed.

Lemma meshgrid_rows_in (xs ys : list R) (q : Knn.FeatureVector) :
  In q (meshgrid_rows xs ys) <-> exists x y, q = [x; y] /\ In x xs /\ In y ys.
Proof.
  unfold meshgrid_rows. rewrite in_flat_map. split.
  - intros [y [Hy Hq]]. apply in_map_iff in Hq. destruct Hq as [x [Hq Hx]].
    exists x, y. auto.
  - intros [x [y [Hq [Hx Hy]]]]. exists y. split; [exact Hy|].
    apply in_map_iff. exists x. auto.
Qed.

Lemma meshgrid_rows_length (xs ys : list R) :
  length (meshgrid_rows xs ys) = (length ys * length xs)%nat.
Proof.
  unfold meshgrid_rows. induction ys as [|y ys IH]; [reflexivity|].
  simpl. rewrite length_app, length_map. f_equal. exact IH.
Qed.

(** The grid of a table with a row exists, and its rows have two
    coordinates. *)
Lemma pcgrid_points (rare : list Row) :
  rare <> [] ->
  exists grid : list Knn.FeatureVector,
    pcgrid rare = Some grid
    /\ length grid = (100 * 100)%nat
    /\ forall q, In q grid -> exists x y, q = [x; y].
Proof.
  intros Hne.
  assert (HP : map Perimeter rare <> [])
    by (destruct rare; [congruence | discriminate]).
  assert (HC : map Concavity rare <> [])
    by (destruct rare; [congruence | discriminate]).
  destruct (col_min_spec _ HP) as [per_lo [Epl _]].
  destruct (col_max_spec _ HP) as [per_hi [Eph _]].
  destruct (col_min_spec _ HC) as [con_lo [Ecl _]].
  destruct (col_max_spec _ HC) as [con_hi [Ech _]].
  exists (meshgrid_rows (np_linspace per_lo per_hi 100)
            (np_linspace con_lo con_hi 100)).
  split; [unfold pcgrid; rewrite Epl, Eph, Ecl, Ech; reflexivity|].
  split; [rewrite meshgrid_rows_length, !np_linspace_length; reflexivity|].
  intros q Hq. apply meshgrid_rows_in in Hq.
  destruct Hq as [x [y [Hq _]]]. exists x, y. exact Hq.
Qed.

(** A frame of queries that all get one label. *)
Lemma predict_constant (clf : Knn.Classifier) (l : Knn.Label)
    (queries : list Knn.FeatureVector) :
  (forall q, In q queries -> Knn.predictOne clf q = Ok l) ->
  predict clf queries = Ok (repeat l (length queries)).
Proof.
  induction queries as [|q qs IH]; intros H; [reflexivity|].
  simpl. rewrite (H q (or_introl eq_refl)). simpl.
  rewrite IH by (intros q' Hq'; apply H; right; exact Hq'). reflexivity.
Qed.

(** The classifier of the chapter's [rare_cancer] with seven neighbours
    answers "Benign" everywhere. *)
Lemma rare_cancer_answers_benign (cancer : list Row) (knn_spec : Knn.Classifier)
    (perimeter concavity : R) :
  (7 <= length (rare_cancer cancer))%nat ->
  Knn.build (map to_sample (rare_cancer cancer)) 7 = Ok knn_spec ->
  Knn.predictOne knn_spec [perimeter; concavity] = Ok "Benign"%string.
Proof.
  intros Hrows Hbuild.
  set (train := map to_sample (rare_cancer cancer)) in *.
  apply (majority_of_seven_votes train "Malignant"%string "Benign"%string
           knn_spec [perimeter; concavity]); auto.
  - discriminate.
  - intros s. apply rare_cancer_two_labels.
  - apply rare_cancer_malignant_votes.
  - unfold train. rewrite length_map. exact Hrows.
  - unfold Knn.same_dimension, train. rewrite Forall_forall.
    intros s Hs. apply in_map_iff in Hs. destruct Hs as [r [<- _]].
    reflexivity.
Qed.

End GridFacts.

(** X9.  [pcgrid] of a table with at least one row: the grid has
    100 x 100 rows of two coordinates; the bounds it is drawn between
    are the least and the greatest perimeter and concavity of the
    table, each the value of some row; every grid point lies within
    these bounds, and the two corners of the bounds are grid points. *)
Theorem pcgrid_covers_the_range_of_the_table :
  forall rare : list Cancer.Row,
    rare <> [] ->
    exists (grid : list Knn.FeatureVector) (per_lo per_hi con_lo con_hi : R),
      Cells.pcgrid rare = Some grid
      /\ length grid = (100 * 100)%nat
      /\ (In per_lo (map Cancer.Perimeter rare)
          /\ In per_hi (map Cancer.Perimeter rare)
          /\ In con_lo (map Cancer.Concavity rare)
          /\ In con_hi (map Cancer.Concavity rare))
      /\ Forall
           (fun r =>
              per_lo <= Cancer.Perimeter r <= per_hi
              /\ con_lo <= Cancer.Concavity r <= con_hi)
           rare
      /\ Forall
           (fun q =>
              exists x y, q = [x; y]
                          /\ per_lo <= x <= per_hi /\ con_lo <= y <= con_hi)
           grid
      /\ In [per_lo; con_lo] grid
      /\ In [per_hi; con_hi] grid.
Proof.
  intros rare Hne.
  assert (HP : map Cancer.Perimeter rare <> [])
    by (destruct rare; [congruence | discriminate]).
  assert (HC : map Cancer.Concavity rare <> [])
    by (destruct rare; [congruence | discriminate]).
  destruct (col_min_spec _ HP) as [per_lo [Epl [Ipl Hpl]]].
  destruct (col_max_spec _ HP) as [per_hi [Eph [Iph Hph]]].
  destruct (col_min_spec _ HC) as [con_lo [Ecl [Icl Hcl]]].
  destruct (col_max_spec _ HC) as [con_hi [Ech [Ich Hch]]].
  exists (Cells.meshgrid_rows (Cells.np_linspace per_lo per_hi 100)
            (Cells.np_linspace con_lo con_hi 100)),
    per_lo, per_hi, con_lo, con_hi.
  assert (Hper : per_lo <= per_hi) by (apply Hpl, Iph).
  assert (Hcon : con_lo <= con_hi) by (apply Hcl, Ich).
  split; [unfold Cells.pcgrid; rewrite Epl, Eph, Ecl, Ech; reflexivity|].
  split; [rewrite meshgrid_rows_length, !np_linspace_length; reflexivity|].
  split; [auto|]. split; [|split; [|split]].
  - rewrite Forall_forall. intros r Hr.
    pose proof (in_map Cancer.Perimeter _ _ Hr) as H1.
    pose proof (in_map Cancer.Concavity _ _ Hr) as H2.
    repeat split; auto.
  - rewrite Forall_forall. intros q Hq.
    apply meshgrid_rows_in in Hq. destruct Hq as [x [y [Hq [Hx Hy]]]].
    exists x, y. split; [exact Hq|]. split.
    + apply (np_linspace_range per_lo per_hi 100 x Hper); [lia | exact Hx].
    + apply (np_linspace_range con_lo con_hi 100 y Hcon); [lia | exact Hy].
  - apply meshgrid_rows_in. exists per_lo, con_lo.
    split; [reflexivity|]. split; apply np_linspace_start_in; lia.
  - apply meshgrid_rows_in. exists per_hi, con_hi.
    split; [reflexivity|]. split; apply np_linspace_stop_in; lia.
Qed.

Lemma pcgrid_covers_the_range_of_the_table_witness :
  three_rare <> []
  /\ exists grid : list Knn.FeatureVector,
       Cells.pcgrid three_rare = Some grid /\ length grid = (100 * 100)%nat.
Proof.
  assert (Hne : three_rare <> []) by discriminate.
  split; [exact Hne|].
  destruct (pcgrid_covers_the_range_of_the_table three_rare Hne)
    as [grid [? [? [? [? [Hg [Hl _]]]]]]].
  exists grid. split; [exact Hg | exact Hl].
Defined.

(** X10.  [knnPredGrid]: the classifier with seven neighbours fitted on
    [rare_cancer] (all benign rows and three malignant rows), asked for
    the whole grid [pcgrid], answers "Benign" at each of its 10000
    points, once [rare_cancer] has seven rows. *)
Theorem the_whole_grid_of_rare_cancer_is_predicted_benign :
  forall cancer : list Cancer.Row,
    (7 <= length (Cancer.rare_cancer cancer))%nat ->
    exists (knn_spec : Knn.Classifier) (pcgrid : list Knn.FeatureVector),
      Knn.build (map Cancer.to_sample (Cancer.rare_cancer cancer)) 7
      = Ok knn_spec
      /\ Cells.pcgrid (Cancer.rare_cancer cancer) = Some pcgrid
      /\ Cells.predict knn_spec pcgrid = Ok (repeat "Benign"%string (100 * 100)).
Proof.
  intros cancer Hrows.
  assert (Hne : Cancer.rare_cancer cancer <> []).
  { intros H. rewrite H in Hrows. simpl in Hrows. lia. }
  destruct (pcgrid_points (Cancer.rare_cancer cancer) Hne)
    as [grid [Hg [Hl Hpts]]].
  set (train := map Cancer.to_sample (Cancer.rare_cancer cancer)).
  assert (Hb : Knn.build train 7
               = Ok (Knn.mkClassifier train 7
                       (Knn.np_unique (map Knn.label train)))).
  { apply build_ok; [lia|]. unfold train. intros H.
    apply map_eq_nil in H. contradiction. }
  exists (Knn.mkClassifier train 7 (Knn.np_unique (map Knn.label train))), grid.
  split; [exact Hb|]. split; [exact Hg|].
  rewrite <- Hl. apply predict_constant. intros q Hq.
  destruct (Hpts q Hq) as [x [y Hxy]]. rewrite Hxy.
  apply (rare_cancer_answers_benign cancer _ x y Hrows Hb).
Qed.

Lemma the_whole_grid_of_rare_cancer_is_predicted_benign_witness :
  (7 <= length (Cancer.rare_cancer eight_rows))%nat
  /\ exists (knn_spec : Knn.Classifier) (pcgrid : list Knn.FeatureVector),
       Knn.build (map Cancer.to_sample (Cancer.rare_cancer eight_rows)) 7
       = Ok knn_spec
       /\ Cells.pcgrid (Cancer.rare_cancer eight_rows) = Some pcgrid
       /\ Cells.predict knn_spec pcgrid
          = Ok (repeat "Benign"%string (100 * 100)).
Proof.
  assert (Hrows : (7 <= length (Cancer.rare_cancer eight_rows))%nat)
    by (simpl; lia).
  split; [exact Hrows|].
  exact (the_whole_grid_of_rare_cancer_is_predicted_benign eight_rows Hrows).
Defined.

(** ** The preprocessor takes its columns by name *)



(** ** The pipeline of scaler and classifier *)

Section PipelineFacts.
Import Scaler Cells.

Lemma labelled_rows_length (labels : list string) (areas smooths : Column) :
  length areas = length labels -> length smooths = length labels ->
  length (labelled_rows labels [areas; smooths]) = length labels.
Proof.
  intros Ha Hs. unfold labelled_rows.
  rewrite length_map, !length_combine. lia.
Qed.

Lemma labelled_rows_dimension (labels : list string) (t : Table) (x y : R) :
  Knn.same_dimension [x; y] (labelled_rows labels t).
Proof.
  unfold Knn.same_dimension, labelled_rows.
  destruct t as [|c1 [|c2 [|c3 t]]]; try constructor.
  rewrite Forall_forall. intros s Hs. apply in_map_iff in Hs.
  destruct Hs as [p [<- _]]. reflexivity.
Qed.

Lemma labelled_rows_labels (labels : list string) (t : Table) (l : string) :
  In l (map Knn.label (labelled_rows labels t)) -> In l labels.
Proof.
  unfold labelled_rows.
  destruct t as [|c1 [|c2 [|c3 t]]]; try contradiction.
  rewrite map_map. intros H. apply in_map_iff in H.
  destruct H as [[l' p] [Hl Hin]]. simpl in Hl. rewrite <- Hl.
  apply (in_combine_l _ _ _ _ Hin).
Qed.

(** What the fitted pipeline holds: the parameters of the two columns,
    and the classifier trained on the scaled columns. *)
Lemma knn_fit_eq (rows : list URow) :
  rows <> [] ->
  knn_fit rows
  = bind
      (Knn.build
         (labelled_rows (map UClass rows)
            [transform_column
               (mkParams (mean (map Area rows)) (scale_of (map Area rows)))
               (map Area rows);
             transform_column
               (mkParams (mean (map Smoothness rows))
                  (scale_of (map Smoothness rows)))
               (map Smoothness rows)]) 7)
      (fun clf =>
         Ok ([mkParams (mean (map Area rows)) (scale_of (map Area rows));
              mkParams (mean (map Smoothness rows))
                (scale_of (map Smoothness rows))], clf)).
Proof.
  intros Hne. unfold knn_fit.
  rewrite fit_ok.
  - reflexivity.
  - discriminate.
  - repeat constructor; intros H; apply map_eq_nil in H; contradiction.
Qed.

End PipelineFacts.

(** X13.  The pipeline [knn_fit] (scaler, then classifier with seven
    neighbours).  On a table without rows the fit fails.  On a table
    with rows the fit succeeds, also when there are fewer than seven of
    them; then every prediction fails, there being fewer samples than
    neighbours asked for.  With at least seven rows every prediction
    succeeds, and the answer is the class of some row of the table. *)
Theorem pipeline_predicts_a_class_of_the_table :
  forall (unscaled_cancer : list Cells.URow) (area smoothness : R),
    (unscaled_cancer = [] ->
     Cells.knn_fit unscaled_cancer = Err InvalidInputError)
    /\ (unscaled_cancer <> [] ->
        exists fitted,
          Cells.knn_fit unscaled_cancer = Ok fitted
          /\ ((length unscaled_cancer < 7)%nat ->
              Cells.pipeline_predict fitted area smoothness
              = Err InvalidArgumentError)
          /\ ((7 <= length unscaled_cancer)%nat ->
              exists l : Knn.Label,
                Cells.pipeline_predict fitted area smoothness = Ok l
                /\ In l (map Cells.UClass unscaled_cancer))).
Proof.
  intros rows area smoothness. split; [intros ->; reflexivity|].
  intros Hne. rewrite (knn_fit_eq rows Hne).
  set (A := map Cells.Area rows).
  set (S := map Cells.Smoothness rows).
  set (ts := Cells.labelled_rows (map Cells.UClass rows)
               [Scaler.transform_column
                  (Scaler.mkParams (Scaler.mean A) (Scaler.scale_of A)) A;
                Scaler.transform_column
                  (Scaler.mkParams (Scaler.mean S) (Scaler.scale_of S)) S]).
  assert (Hlen : length ts = length rows).
  { unfold ts. rewrite labelled_rows_length;
      unfold Scaler.transform_column, A, S; rewrite !length_map; reflexivity. }
  assert (Hts : ts <> []).
  { intros H. rewrite H in Hlen. simpl in Hlen.
    destruct rows; [congruence | discriminate]. }
  assert (Hb : Knn.build ts 7
               = Ok (Knn.mkClassifier ts 7 (Knn.np_unique (map Knn.label ts))))
    by (apply build_ok; [lia | exact Hts]).
  rewrite Hb. simpl bind. eexists. split; [reflexivity|].
  set (q := [(area - Scaler.mean A) / Scaler.scale_of A;
             (smoothness - Scaler.mean S) / Scaler.scale_of S]).
  assert (Hquery : forall clf,
    Cells.pipeline_predict
      ([Scaler.mkParams (Scaler.mean A) (Scaler.scale_of A);
        Scaler.mkParams (Scaler.mean S) (Scaler.scale_of S)], clf)
      area smoothness
    = Knn.predictOne clf q)
    by reflexivity.
  rewrite Hquery.
  assert (Hd : Knn.same_dimension q ts) by apply labelled_rows_dimension.
  split.
  - intros Hfew. apply (predictOne_k_too_large ts 7 _ q Hb); [lia | exact Hd].
  - intros Hseven.
    assert (Hk : (1 <= 7 <= Z.of_nat (length ts))%Z) by lia.
    destruct (predictOne_of_nearest ts 7 _ q _ Hb (nearest_ok ts q 7 Hk Hd))
      as [l [Hl [Hin _]]].
    exists l. split; [exact Hl|].
    apply (labelled_rows_labels (map Cells.UClass rows)
             [Scaler.transform_column
                (Scaler.mkParams (Scaler.mean A) (Scaler.scale_of A)) A;
              Scaler.transform_column
                (Scaler.mkParams (Scaler.mean S) (Scaler.scale_of S)) S]).
    fold ts.
    apply (proj2 (proj2 (proj2
             (nearest_votes ts q 7 _ (nearest_ok ts q 7 Hk Hd))))).
    exact Hin.
Qed.

Lemma pipeline_predicts_a_class_of_the_table_witness :
  seven_urows <> []
  /\ (7 <= length seven_urows)%nat
  /\ exists fitted (l : Knn.Label),
       Cells.knn_fit seven_urows = Ok fitted
       /\ Cells.pipeline_predict fitted 500 0.075 = Ok l
       /\ In l (map Cells.UClass seven_urows).
Proof.
  assert (Hne : seven_urows <> []) by discriminate.
  assert (H7 : (7 <= length seven_urows)%nat) by (simpl; lia).
  split; [exact Hne|]. split; [exact H7|].
  destruct (proj2 (pipeline_predicts_a_class_of_the_table
                     seven_urows 500 0.075) Hne)
    as [fitted [Hf [_ Hok]]].
  destruct (Hok H7) as [l [Hl Hin]].
  exists fitted, l. split; [exact Hf|]. split; [exact Hl | exact Hin].
Defined.

(** ** The indices of the nearest rows by [np.argpartition] *)

Section ArgpartitionFacts.
Import Cells.

Lemma map_fst_combine_seq (a : list R) (s : nat) :
  map fst (combine (seq s (length a)) a) = seq s (length a).
Proof.
  revert s. induction a as [|x a IH]; intros s; [reflexivity|].
  simpl. rewrite IH. reflexivity.
Qed.

Lemma in_combine_seq (a : list R) :
  forall (s i : nat) (v : R),
    In (i, v) (combine (seq s (length a)) a) <->
    (s <= i < s + length a)%nat /\ nth (i - s) a 0 = v.
Proof.
  induction a as [|x a IH]; intros s i v; simpl.
  - split; [contradiction | lia].
  - rewrite IH. split.
    + intros [H | [Hr Hv]].
      * injection H as <- <-. rewrite Nat.sub_diag. split; [lia | reflexivity].
      * split; [lia|]. destruct (i - s)%nat as [|m] eqn:E; [lia|].
        replace (i - S s)%nat with m in Hv by lia. exact Hv.
    + intros [Hr Hv]. destruct (Nat.eq_dec i s) as [-> | Hne].
      * left. rewrite Nat.sub_diag in Hv. rewrite Hv. reflexivity.
      * right. split; [lia|]. destruct (i - s)%nat as [|m] eqn:E; [lia|].
        replace (i - S s)%nat with m by lia. exact Hv.
Qed.

End ArgpartitionFacts.

(** X14.  [min_k_idx = np.argpartition(my_distances, k)[:k]] needs more
    than [k] distances: with at least one distance and at most [k] of
    them it fails, so seven nearest rows cannot be taken this way from a
    table of seven rows; only without any distance does it return the
    empty array, whatever [k] is.  With more than [k] distances it holds
    [k] different positions of the array, and the distance at each of
    them is at most the distance at every position left out. *)
Theorem min_idx_holds_the_positions_of_the_k_least_distances :
  forall (my_distances : list R) (k : nat),
    (my_distances = [] -> Cells.min_idx my_distances k = Ok [])
    /\ ((1 <= length my_distances <= k)%nat ->
        Cells.min_idx my_distances k = Err InvalidArgumentError)
    /\ ((k < length my_distances)%nat ->
        exists idx : list nat,
          Cells.min_idx my_distances k = Ok idx
          /\ length idx = k
          /\ NoDup idx
          /\ Forall (fun i => (i < length my_distances)%nat) idx
          /\ forall i j : nat,
               In i idx -> (j < length my_distances)%nat -> ~ In j idx ->
               nth i my_distances 0 <= nth j my_distances 0).
Proof.
  intros a k. unfold Cells.min_idx, Cells.np_argpartition.
  split; [|split].
  - intros ->. simpl. rewrite firstn_nil. reflexivity.
  - intros [H1 Hk]. destruct a as [|x a']; [simpl in H1; lia|].
    rewrite (proj2 (Nat.ltb_ge k (length (x :: a'))) Hk). reflexivity.
  - intros Hk. destruct a as [|x a']; [simpl in Hk; lia|].
    cbv iota. remember (x :: a') as a eqn:Ea. clear Ea x a'.
    rewrite (proj2 (Nat.ltb_lt k (length a)) Hk). simpl bind.
    set (pairs := combine (seq 0 (length a)) a).
    set (sorted := Frame.sort_values snd pairs).
    assert (Hperm : Permutation sorted pairs) by apply sort_values_perm.
    assert (Hsorted : StronglySorted (fun x y => snd x <= snd y) sorted)
      by apply (sort_values_sorted (A := nat * R)).
    assert (Hidx : Permutation (map fst sorted) (seq 0 (length a))).
    { rewrite <- (map_fst_combine_seq a 0). apply Permutation_map, Hperm. }
    assert (Hnd : NoDup (map fst sorted)).
    { apply (Permutation_NoDup (Permutation_sym Hidx)), seq_NoDup. }
    assert (Hval : forall p, In p sorted ->
                     (fst p < length a)%nat /\ snd p = nth (fst p) a 0).
    { intros [i v] Hp. apply (Permutation_in _ Hperm) in Hp.
      apply in_combine_seq in Hp. destruct Hp as [Hr Hv]. simpl.
      rewrite Nat.sub_0_r in Hv. split; [lia | symmetry; exact Hv]. }
    rewrite <- (firstn_skipn k sorted) in Hsorted, Hnd.
    rewrite map_app in Hnd.
    exists (firstn k (map fst sorted)). split; [reflexivity|].
    rewrite firstn_map. split; [|split; [|split]].
    + rewrite length_map, length_firstn.
      rewrite (Permutation_length Hperm). unfold pairs.
      rewrite length_combine, length_seq. lia.
    + apply (NoDup_app_remove_r _ _ Hnd).
    + rewrite Forall_forall. intros i Hi. apply in_map_iff in Hi.
      destruct Hi as [p [<- Hp]]. apply in_firstn in Hp. apply Hval, Hp.
    + intros i j Hi Hj Hout. apply in_map_iff in Hi.
      destruct Hi as [p [<- Hp]].
      assert (Hjin : In (j, nth j a 0) sorted).
      { apply (Permutation_in _ (Permutation_sym Hperm)).
        apply in_combine_seq. rewrite Nat.sub_0_r. split; [lia | reflexivity]. }
      rewrite <- (firstn_skipn k sorted) in Hjin.
      apply in_app_or in Hjin. destruct Hjin as [Hjin | Hjin].
      * exfalso. apply Hout. apply in_map_iff.
        exists (j, nth j a 0). split; [reflexivity | exact Hjin].
      * rewrite <- (proj2 (Hval p (in_firstn _ _ _ Hp))).
        apply (sorted_app_le snd _ _ Hsorted p (j, nth j a 0) Hp Hjin).
Qed.

Lemma min_idx_holds_the_positions_of_the_k_least_distances_witness :
  Cells.min_idx [0.3; 0.1; 0.2] 3 = Err InvalidArgumentError
  /\ exists idx : list nat,
       Cells.min_idx [0.3; 0.1; 0.2] 2 = Ok idx /\ length idx = 2%nat.
Proof.
  split.
  - apply (proj1 (proj2 (min_idx_holds_the_positions_of_the_k_least_distances
                           [0.3; 0.1; 0.2] 3))). simpl. lia.
  - destruct (proj2 (proj2
                (min_idx_holds_the_positions_of_the_k_least_distances
                   [0.3; 0.1; 0.2] 2))) as [idx [Hi [Hl _]]];
      [simpl; lia|].
    exists idx. split; [exact Hi | exact Hl].
Defined.

(** ** The classifier fitted on the oversampled table *)

Section DecisiveCopies.
Import Knn.







End DecisiveCopies.


